(** * cluster-backup-operator: the helpers of [controllers/utils.go]

    A shallow embedding of the Go functions of [controllers/utils.go]
    and the properties the specification states about them.

    Conventions of the embedding:
    - a Go [string] is a sequence of bytes: [String.string], whose
      characters are 8-bit [ascii] values; [len] counts bytes;
    - a Go [int] is a [Z]; every integer the code computes is an index or a
      length of a string or slice, far from the 64-bit bounds;
    - a slice is a [list]; a nil pointer, a nil map and a nil [error] are
      [None];
    - a run-time panic (slice bounds, nil dereference, failed type
      assertion, reflect misuse) is the [Panic] outcome of the [exec] monad;
    - the calls of the logger do not influence any returned value and are
      left out. *)

From Stdlib Require Import ZArith String Ascii List Lia.
From stdpp Require Import gmap strings list fin_maps.

Local Open Scope Z_scope.

(** stdpp freezes [String.append] under [simpl]; the proofs below compute
    with it. *)
#[local] Arguments String.append !s1 s2 : simpl nomatch.

(** ** Outcomes of Go code that may panic *)

Inductive exec (A : Type) : Type :=
  | Done (a : A)
  | Panic (msg : string).
Arguments Done {A} a.
Arguments Panic {A} msg.

Definition exec_bind {A B : Type} (m : exec A) (k : A -> exec B) : exec B :=
  match m with
  | Done a => k a
  | Panic msg => Panic msg
  end.

Notation "'do' x <~ m ;; k" := (exec_bind m (fun x => k))
  (at level 10, x name, m at level 99, k at level 200).

(** A Go [error] value is represented by its message. *)
Definition error : Type := string.

(** ** Byte strings *)

Definition len (s : string) : Z := Z.of_nat (String.length s).

Fixpoint str_take (n : nat) (s : string) : string :=
  match n, s with
  | O, _ => EmptyString
  | S _, EmptyString => EmptyString
  | S n', String c s' => String c (str_take n' s')
  end.

Fixpoint str_drop (n : nat) (s : string) : string :=
  match n, s with
  | O, _ => s
  | S _, EmptyString => EmptyString
  | S n', String _ s' => str_drop n' s'
  end.

(** The slice expression [s[lo:hi]]; Go panics unless
    [0 <= lo <= hi <= len(s)]. *)
Definition slice_str (s : string) (lo hi : Z) : exec string :=
  if (0 <=? lo) && (lo <=? hi) && (hi <=? len s)
  then Done (str_take (Z.to_nat (hi - lo)) (str_drop (Z.to_nat lo) s))
  else Panic "slice bounds out of range".

(** [s[lo:]] and [s[:hi]]. *)
Definition slice_from (s : string) (lo : Z) : exec string := slice_str s lo (len s).
Definition slice_to (s : string) (hi : Z) : exec string := slice_str s 0 hi.

(** Does the byte [c] occur in [s]? *)
Fixpoint str_mem (c : ascii) (s : string) : bool :=
  match s with
  | EmptyString => false
  | String d s' => Ascii.eqb c d || str_mem c s'
  end.

Definition str_rev (s : string) : string :=
  string_of_list_ascii (rev (list_ascii_of_string s)).

(** ** The functions of Go's [strings] package that the code calls

    [ToLower] and [time.Parse] belong to the Go library as well; they are
    parameters of the functions that call them (see below). *)

Module gostrings.

(** [len(s) >= len(prefix) && s[:len(prefix)] == prefix] *)
Definition HasPrefix (s prefix : string) : bool :=
  (len prefix <=? len s) && String.eqb (str_take (String.length prefix) s) prefix.

(** [len(s) >= len(suffix) && s[len(s)-len(suffix):] == suffix] *)
Definition HasSuffix (s suffix : string) : bool :=
  (len suffix <=? len s)
  && String.eqb (str_drop (String.length s - String.length suffix) s) suffix.

(** Index of the first instance of [substr] in [s], or -1. *)
Fixpoint Index_from (s substr : string) (i : Z) : Z :=
  if HasPrefix s substr then i
  else match s with
       | EmptyString => -1
       | String _ s' => Index_from s' substr (i + 1)
       end.
Definition Index (s substr : string) : Z := Index_from s substr 0.

(** Index of the last instance of [substr] in [s], or -1. *)
Fixpoint LastIndex_from (s substr : string) (i : Z) : Z :=
  let here := if HasPrefix s substr then i else -1 in
  match s with
  | EmptyString => here
  | String _ s' =>
      let later := LastIndex_from s' substr (i + 1) in
      if later =? -1 then here else later
  end.
Definition LastIndex (s substr : string) : Z := LastIndex_from s substr 0.

(** [TrimLeft]: drop the leading bytes that occur in [cutset]. *)
Fixpoint TrimLeft (s cutset : string) : string :=
  match s with
  | EmptyString => EmptyString
  | String c s' => if str_mem c cutset then TrimLeft s' cutset else s
  end.

Definition TrimRight (s cutset : string) : string :=
  str_rev (TrimLeft (str_rev s) cutset).

(** [Trim]: all leading and trailing bytes of [cutset] removed.  Go trims
    code points; for a cutset of ASCII bytes, as in the one call of this
    file, that is the same as trimming bytes. *)
Definition Trim (s cutset : string) : string :=
  TrimRight (TrimLeft s cutset) cutset.

(** [ToLower] on ASCII text: the letters [A]..[Z] move to [a]..[z], every
    other byte stays.  Go lowers all of Unicode; this is its behaviour on
    the ASCII kinds of the examples. *)
Definition lowerByte (c : ascii) : ascii :=
  let n := N_of_ascii c in
  if ((65 <=? n) && (n <=? 90))%N then ascii_of_N (n + 32) else c.

Fixpoint ToLowerASCII (s : string) : string :=
  match s with
  | EmptyString => EmptyString
  | String c s' => String (lowerByte c) (ToLowerASCII s')
  end.

End gostrings.

(** ** Go's [time] package: the part the code uses *)

Module gotime.

(** A [time.Time] in UTC, by its calendar fields. *)
Record Time : Type := mkTime {
  Year : Z; Month : Z; Day : Z;
  Hour : Z; Minute : Z; Second : Z; Nanosecond : Z
}.

(** [time.Time{}]: January 1, year 1, 00:00:00 UTC. *)
Definition zero : Time := mkTime 1 1 1 0 0 0 0.

(** *** [time.Parse] for the layout of Velero's backup names

    The layout [20060102150405] is the chunk sequence year (four
    digits), zero-padded month, zero-padded day, hour, zero-padded
    minute, zero-padded second.  The definitions follow [getnum], [atoi],
    [parseNanoseconds], [daysIn] and the loop of [parse] in Go's
    [time/format.go].  A [ParseError] is represented by one message. *)

Definition isDigit (c : ascii) : bool :=
  (48 <=? Z.of_N (N_of_ascii c)) && (Z.of_N (N_of_ascii c) <=? 57).

Definition digit (c : ascii) : Z := Z.of_N (N_of_ascii c) - 48.

(** [getnum(s, fixed)]: one or two digits, two when [fixed]. *)
Definition getnum (s : string) (fixed : bool) : option (Z * string) :=
  match s with
  | String c0 rest0 =>
      if isDigit c0 then
        match rest0 with
        | String c1 rest1 =>
            if isDigit c1 then Some (digit c0 * 10 + digit c1, rest1)
            else if fixed then None else Some (digit c0, rest0)
        | EmptyString => if fixed then None else Some (digit c0, rest0)
        end
      else None
  | EmptyString => None
  end.

(** The chunk [2006]: at least four bytes, all of the first four digits. *)
Definition getyear (s : string) : option (Z * string) :=
  match s with
  | String a (String b (String c (String d rest))) =>
      if isDigit a && isDigit b && isDigit c && isDigit d
      then Some (((digit a * 10 + digit b) * 10 + digit c) * 10 + digit d, rest)
      else None
  | _ => None
  end.

(** The longest prefix of digits, read as a number, with its length. *)
Fixpoint leadingDigits (s : string) (acc : Z) (n : nat) : Z * nat * string :=
  match s with
  | String c rest =>
      if isDigit c
      then leadingDigits rest (if (n <? 9)%nat then acc * 10 + digit c else acc) (S n)
      else (acc, n, s)
  | EmptyString => (acc, n, s)
  end.

(** A fractional second in the input that the layout does not mention:
    a period or comma followed by digits, of which nine count. *)
Definition getfraction (s : string) : Z * string :=
  match s with
  | String sep (String c1 rest) =>
      if (Ascii.eqb sep "." || Ascii.eqb sep ",") && isDigit c1 then
        let '(ns, n, rest') := leadingDigits (String c1 rest) 0 0%nat in
        (ns * 10 ^ (Z.of_nat (9 - n)), rest')
      else (0, s)
  | _ => (0, s)
  end.

Definition isLeap (year : Z) : bool :=
  (year mod 4 =? 0) && (negb (year mod 100 =? 0) || (year mod 400 =? 0)).

Definition daysIn (month year : Z) : Z :=
  if (month =? 2) && isLeap year then 29
  else if month =? 2 then 28
  else if (month =? 4) || (month =? 6) || (month =? 9) || (month =? 11) then 30
  else 31.

Definition parseError : error := "parsing time: cannot parse value as layout".

Definition parse_20060102150405 (value : string) : option Time :=
  match getyear value with
  | None => None
  | Some (year, value) =>
  match getnum value true with
  | None => None
  | Some (month, value) =>
  if (month <=? 0) || (12 <? month) then None else
  match getnum value true with
  | None => None
  | Some (day, value) =>
  match getnum value false with
  | None => None
  | Some (hour, value) =>
  if (hour <? 0) || (24 <=? hour) then None else
  match getnum value true with
  | None => None
  | Some (min, value) =>
  if (min <? 0) || (60 <=? min) then None else
  match getnum value true with
  | None => None
  | Some (sec, value) =>
  if (sec <? 0) || (60 <=? sec) then None else
  let '(nsec, value) := getfraction value in
  match value with
  | String _ _ => None
  | EmptyString =>
      if (day <? 1) || (daysIn month year <? day) then None
      else Some (mkTime year month day hour min sec nsec)
  end end end end end end end.

(** [time.Parse(layout, value)], for the one layout the code passes. *)
Definition Parse (layout value : string) : Time * option error :=
  if String.eqb layout "20060102150405" then
    match parse_20060102150405 value with
    | Some t => (t, None)
    | None => (mkTime 1 1 1 0 0 0 0, Some parseError)
    end
  else (mkTime 1 1 1 0 0 0 0, Some "layout outside this model"%string).

End gotime.

(** ** The Kubernetes and Velero API types the code reads

    Only the fields the functions touch are kept. *)

Module metav1.

Record OwnerReference : Type := mkOwnerReference {
  OwnerReference_Kind : string;
  OwnerReference_Name : string
}.

Record APIResource : Type := mkAPIResource {
  APIResource_Name : string;
  APIResource_Kind : string
}.

Record APIResourceList : Type := mkAPIResourceList {
  APIResources : list APIResource
}.

Record GroupVersionForDiscovery : Type := mkGroupVersionForDiscovery {
  GroupVersion : string;
  Version : string
}.

Record APIGroup : Type := mkAPIGroup {
  APIGroup_Name : string;
  Versions : list GroupVersionForDiscovery
}.

Record APIGroupList : Type := mkAPIGroupList {
  Groups : list APIGroup
}.

End metav1.

Module veleroapi.

(** [BackupStorageLocationPhaseAvailable] *)
Definition BackupStorageLocationPhaseAvailable : string := "Available".

Record BackupStorageLocationStatus : Type := mkBackupStorageLocationStatus {
  Phase : string
}.

(** [OwnerReferences] is a slice that may be nil. *)
Record BackupStorageLocation : Type := mkBackupStorageLocation {
  Namespace : string;
  OwnerReferences : option (list metav1.OwnerReference);
  Status : BackupStorageLocationStatus
}.

Record BackupStorageLocationList : Type := mkBackupStorageLocationList {
  Items : list BackupStorageLocation
}.

Record BackupSpec : Type := mkBackupSpec {
  ExcludedResources : list string
}.

Record Backup : Type := mkBackup {
  Spec : BackupSpec
}.

End veleroapi.

(** [discovery.DiscoveryInterface]: the catalog one call of the discovery
    function sees.  Each method returns a pointer and an [error]. *)
Module discovery.

Record DiscoveryInterface : Type := mkDiscoveryInterface {
  ServerGroups : option metav1.APIGroupList * option error;
  ServerResourcesForGroupVersion :
    string -> option metav1.APIResourceList * option error
}.

End discovery.

(** Untyped object payloads, as the dynamic client decodes them from JSON:
    [interface{}] values holding nil, a bool, a number, a string, a slice or
    a [map[string]interface{}]. *)
Module unstructured.

#[warnings="-register-all"]
Inductive Value : Type :=
  | VNil
  | VBool (b : bool)
  | VInt64 (n : Z)
  | VFloat64 (bits : Z)
  | VString (s : string)
  | VSlice (l : list Value)
  | VMap (m : gmap string Value).

(** [Object] is a [map[string]interface{}] that may be nil. *)
Record Unstructured : Type := mkUnstructured {
  Object : option (gmap string Value)
}.

Record UnstructuredList : Type := mkUnstructuredList {
  Items : list Unstructured
}.

End unstructured.

Module schema.

Record GroupKind : Type := mkGroupKind {
  GroupKind_Group : string;
  GroupKind_Kind : string
}.

Record GroupVersionResource : Type := mkGroupVersionResource {
  Group : string;
  Version : string;
  Resource : string
}.

End schema.

Module meta.

Record RESTMapping : Type := mkRESTMapping {
  Resource : schema.GroupVersionResource
}.

End meta.

Module restmapper.

(** [RESTMapping(gk, versions...)] of the deferred discovery mapper. *)
Record DeferredDiscoveryRESTMapper : Type := mkDeferredDiscoveryRESTMapper {
  RESTMapping :
    schema.GroupKind -> list string -> option meta.RESTMapping * option error
}.

End restmapper.

Module dynamic.

(** [List(ctx, v1.ListOptions{})] of one resource client. *)
Record ResourceInterface : Type := mkResourceInterface {
  List : option unstructured.UnstructuredList * option error
}.

(** [Resource(gvr)]; the returned interface value may be nil. *)
Record Interface : Type := mkInterface {
  Resource : schema.GroupVersionResource -> option ResourceInterface
}.

End dynamic.

(** ** Package [controllers]: collection utilities *)

Module controllers.

(** [for i, item := range slice { if strings.HasSuffix(val, item) ... }] *)
Fixpoint findSuffix_from (slice : list string) (val : string) (i : Z) : Z * bool :=
  match slice with
  | [] => (-1, false)
  | item :: rest =>
      if gostrings.HasSuffix val item then (i, true)
      else findSuffix_from rest val (i + 1)
  end.
Definition findSuffix (slice : list string) (val : string) : Z * bool :=
  findSuffix_from slice val 0.

(** [for i, item := range slice { if item == val ... }] *)
Fixpoint find_from (slice : list string) (val : string) (i : Z) : Z * bool :=
  match slice with
  | [] => (-1, false)
  | item :: rest =>
      if String.eqb item val then (i, true)
      else find_from rest val (i + 1)
  end.
Definition find (slice : list string) (val : string) : Z * bool :=
  find_from slice val 0.

Definition findValue (slice : list string) (val : string) : bool :=
  let '(_, ok) := find slice val in ok.

Definition appendUnique (slice : list string) (value : string) : list string :=
  let '(_, ok) := find slice value in
  if negb ok then slice ++ [value] else slice.

Definition min (x y : Z) : Z := if x <? y then x else y.

(** *** Naming utilities *)

Definition getValidKsRestoreName (clusterRestoreName backupName : string)
  : exec string :=
  let fullName := clusterRestoreName +:+ "-" +:+ backupName in
  if len fullName >? 252 then slice_to fullName 252
  else Done fullName.

(** *** Resource name codec *)

Definition getResourceDetails (resourceName : string) : exec (string * string) :=
  let indexOfName := gostrings.Index resourceName "." in
  if indexOfName >? -1 then
    do kind <~ slice_to resourceName indexOfName ;;
    do group <~ slice_from resourceName (indexOfName + 1) ;;
    Done (kind, group)
  else Done (resourceName, EmptyString).

(** *** Timestamp of a backup name

    [time.Parse] is Go's; the function is defined for any parser. *)

Section WithTimeParse.

Variable time_Parse : string -> string -> gotime.Time * option error.

Definition getBackupTimestamp (backupName : string)
  : exec (gotime.Time * option error) :=
  let timestampIndex := gostrings.LastIndex backupName "-" in
  if negb (timestampIndex =? -1) then
    do tail <~ slice_from backupName timestampIndex ;;
    let timestampStr := gostrings.Trim tail "-" in
    Done (time_Parse "20060102150405" timestampStr)
  else Done (gotime.zero, None).

End WithTimeParse.

(** *** Storage location validator *)

(** The inner loop over the owner references of one location; the state
    is the pair [(isValidStorageLocation, veleroNamespace)]. *)
Fixpoint scanOwnerReferences (refs : list metav1.OwnerReference)
    (namespace : string) (st : bool * string) : bool * string :=
  match refs with
  | [] => st
  | ref :: rest =>
      if negb (String.eqb (metav1.OwnerReference_Kind ref) "")
      then (true, namespace)
      else scanOwnerReferences rest namespace st
  end.

(** The outer loop, left as soon as the flag is set. *)
Fixpoint scanStorageLocations (items : list veleroapi.BackupStorageLocation)
    (st : bool * string) : bool * string :=
  match items with
  | [] => st
  | item :: rest =>
      let st' :=
        match veleroapi.OwnerReferences item with
        | Some refs =>
            if String.eqb (veleroapi.Phase (veleroapi.Status item))
                 veleroapi.BackupStorageLocationPhaseAvailable
            then scanOwnerReferences refs (veleroapi.Namespace item) st
            else st
        | None => st
        end in
      if fst st' then st' else scanStorageLocations rest st'
  end.

Definition isValidStorageLocationDefined
    (veleroStorageLocations : veleroapi.BackupStorageLocationList)
  : bool * string :=
  scanStorageLocations (veleroapi.Items veleroStorageLocations) (false, EmptyString).

(** *** Generic resource discovery

    [strings.ToLower] is Go's; the function is defined for any lowering
    function.  [veleroBackup] stands for the object the pointer refers
    to. *)

Section WithToLower.

Variable ToLower : string -> string.

(** The body of the loop over [resourceList.APIResources]. *)
Definition visitResource (excluded : list string) (group : metav1.APIGroup)
    (resources : list string) (resource : metav1.APIResource) : list string :=
  let resourceKind := ToLower (metav1.APIResource_Kind resource) in
  let resourceName := resourceKind +:+ "." +:+ metav1.APIGroup_Name group in
  if negb (findValue excluded resourceName) && negb (findValue excluded resourceKind)
  then appendUnique resources resourceName
  else resources.

(** The body of the loop over [group.Versions]; [continue] leaves the
    accumulated resources as they are. *)
Definition visitVersion (dc : discovery.DiscoveryInterface)
    (excluded : list string) (group : metav1.APIGroup)
    (resources : list string) (version : metav1.GroupVersionForDiscovery)
  : list string :=
  let '(resourceList, err) :=
    discovery.ServerResourcesForGroupVersion dc (metav1.GroupVersion version) in
  match err with
  | Some _ => resources
  | None =>
      match resourceList with
      | None => resources
      | Some rl =>
          if String.eqb (metav1.APIGroup_Name group) "" then resources
          else fold_left (visitResource excluded group)
                 (metav1.APIResources rl) resources
      end
  end.

(** The body of the loop over [groupList.Groups]. *)
Definition visitGroup (dc : discovery.DiscoveryInterface)
    (excluded : list string) (resources : list string)
    (group : metav1.APIGroup) : list string :=
  fold_left (visitVersion dc excluded group) (metav1.Versions group) resources.

Definition getGenericCRDFromAPIGroups (dc : discovery.DiscoveryInterface)
    (veleroBackup : veleroapi.Backup) : list string * option error :=
  let resources := [] in
  let '(groupList, err) := discovery.ServerGroups dc in
  match err with
  | Some e => (resources, Some ("failed to get server groups: " +:+ e))
  | None =>
      match groupList with
      | None => (resources, None)
      | Some gl =>
          (fold_left
             (visitGroup dc
                (veleroapi.ExcludedResources (veleroapi.Spec veleroBackup)))
             (metav1.Groups gl) resources,
           None)
      end
  end.

End WithToLower.

(** *** Hub identity *)

(** [value.(string)]: the unchecked type assertion. *)
Definition assertString (value : unstructured.Value) : exec string :=
  match value with
  | unstructured.VString s => Done s
  | _ => Panic "interface conversion: interface {} is not string"
  end.

(** The loop [for iter.Next() { ... }] over the entries of the [spec]
    map, in the order the iterator yields them. *)
Fixpoint rangeSpec (entries : list (string * unstructured.Value))
    (uid : string) : exec string :=
  match entries with
  | [] => Done uid
  | (key, value) :: rest =>
      if String.eqb key "clusterID" then
        do uid' <~ assertString value ;;
        rangeSpec rest uid'
      else rangeSpec rest uid
  end.

(** [reflect.ValueOf(specInfo).MapRange()] panics unless the value is a
    map.  Go yields the entries of a map in no specified order;
    [map_to_list] is one such order, and [rangeSpec_any_order] below shows
    that the order does not matter. *)
Definition mapRange (specInfo : unstructured.Value)
  : exec (list (string * unstructured.Value)) :=
  match specInfo with
  | unstructured.VMap m => Done (map_to_list m)
  | _ => Panic "reflect: call of reflect.Value.MapRange on non-map Value"
  end.

(** [Object["spec"]]: nil when the key is absent. *)
Definition index_Object (o : gmap string unstructured.Value) (key : string)
  : unstructured.Value :=
  match o !! key with
  | Some v => v
  | None => unstructured.VNil
  end.

Definition is_nil (v : unstructured.Value) : bool :=
  match v with
  | unstructured.VNil => true
  | _ => false
  end.

Definition getHubIdentification (dyn : dynamic.Interface)
    (mapper : restmapper.DeferredDiscoveryRESTMapper)
  : exec (string * option error) :=
  let uid : string := "unknown" in
  let groupKind :=
    schema.mkGroupKind "config.openshift.io" "ClusterVersion" in
  let '(mapping, err) := restmapper.RESTMapping mapper groupKind [EmptyString] in
  match err with
  | Some e => Done (uid, Some e)
  | None =>
      match mapping with
      | None => Panic "invalid memory address or nil pointer dereference"
      | Some mapping =>
          match dynamic.Resource dyn (meta.Resource mapping) with
          | None => Done (uid, None)
          | Some dr =>
              let '(items, err) := dynamic.List dr in
              match err, items with
              | Some e, _ => Done (uid, Some e)
              | None, None => Done (uid, None)
              | None, Some items =>
                  match unstructured.Items items with
                  | [] => Done (uid, None)
                  | first :: _ =>
                      match unstructured.Object first with
                      | None => Done (uid, None)
                      | Some object =>
                          let specInfo := index_Object object "spec" in
                          if negb (is_nil specInfo) then
                            do entries <~ mapRange specInfo ;;
                            do uid' <~ rangeSpec entries uid ;;
                            Done (uid', None)
                          else Done (uid, None)
                      end
                  end
              end
          end
      end
  end.

(** *** [SortResourceType]: the methods of [sort.Interface]

    The declaration of [ResourceType] is outside this file; the element
    type and its [<] are parameters.  A slice is mutable: [Swap] returns
    the slice after the assignment. *)

Section WithResourceType.

Variable ResourceType : Type.
Variable less : ResourceType -> ResourceType -> bool.

(** The index expression [a[i]]; Go panics unless [0 <= i < len(a)]. *)
Definition index_slice (a : list ResourceType) (i : Z) : exec ResourceType :=
  if (0 <=? i) && (i <? Z.of_nat (length a)) then
    match a !! Z.to_nat i with
    | Some x => Done x
    | None => Panic "index out of range"
    end
  else Panic "index out of range".

Definition SortResourceType_Len (a : list ResourceType) : Z :=
  Z.of_nat (length a).

Definition SortResourceType_Less (a : list ResourceType) (i j : Z) : exec bool :=
  do x <~ index_slice a i ;;
  do y <~ index_slice a j ;;
  Done (less x y).

(** [a[i], a[j] = a[j], a[i]]: both operands are read, then both
    elements are assigned. *)
Definition SortResourceType_Swap (a : list ResourceType) (i j : Z)
  : exec (list ResourceType) :=
  do y <~ index_slice a j ;;
  do x <~ index_slice a i ;;
  Done (<[Z.to_nat j := x]> (<[Z.to_nat i := y]> a)).

End WithResourceType.

End controllers.

(** ** Predicates the properties are stated with *)

(** [item] is a suffix of [val]. *)
Definition ends_with (val item : string) : Prop :=
  exists pre, val = pre +:+ item.

(** How often [value] occurs in [slice]. *)
Fixpoint occurrences (value : string) (slice : list string) : nat :=
  match slice with
  | [] => 0%nat
  | item :: rest =>
      ((if String.eqb item value then 1 else 0) + occurrences value rest)%nat
  end.

(** Some owner reference of the location has a non-empty kind; the list of
    references is then non-empty. *)
Definition has_owner_kind (location : veleroapi.BackupStorageLocation) : bool :=
  match veleroapi.OwnerReferences location with
  | Some refs =>
      existsb (fun ref => negb (String.eqb (metav1.OwnerReference_Kind ref) "")) refs
  | None => false
  end.

(** A location qualifies when it is owned in that sense and its phase is
    [Available]. *)
Definition qualifies (location : veleroapi.BackupStorageLocation) : bool :=
  has_owner_kind location
  && String.eqb (veleroapi.Phase (veleroapi.Status location)) "Available".

(** The catalog [dc] offers the resource name [name], of lowered kind
    [kind]: some resource of a group-version whose fetch succeeds with a
    list, in a group with a name, has that kind and forms that name. *)
Definition offered (ToLower : string -> string) (dc : discovery.DiscoveryInterface)
    (name kind : string) : Prop :=
  exists groupList group version resourceList resource,
    discovery.ServerGroups dc = (Some groupList, None)
    /\ In group (metav1.Groups groupList)
    /\ In version (metav1.Versions group)
    /\ discovery.ServerResourcesForGroupVersion dc (metav1.GroupVersion version)
       = (Some resourceList, None)
    /\ metav1.APIGroup_Name group <> EmptyString
    /\ In resource (metav1.APIResources resourceList)
    /\ kind = ToLower (metav1.APIResource_Kind resource)
    /\ name = kind +:+ "." +:+ metav1.APIGroup_Name group.

(** What one resource, one version and one group contribute to the result
    of the discovery, under the exclusion list [excluded]. *)
Section DiscoveryPredicates.

Variable ToLower : string -> string.
Variable dc : discovery.DiscoveryInterface.
Variable excluded : list string.

Definition yields (group : metav1.APIGroup) (resource : metav1.APIResource)
    (x : string) : Prop :=
  x = ToLower (metav1.APIResource_Kind resource) +:+ "." +:+ metav1.APIGroup_Name group
  /\ ~ In x excluded
  /\ ~ In (ToLower (metav1.APIResource_Kind resource)) excluded.

Definition version_yields (group : metav1.APIGroup)
    (version : metav1.GroupVersionForDiscovery) (x : string) : Prop :=
  exists resourceList resource,
    discovery.ServerResourcesForGroupVersion dc (metav1.GroupVersion version)
    = (Some resourceList, None)
    /\ metav1.APIGroup_Name group <> EmptyString
    /\ In resource (metav1.APIResources resourceList)
    /\ yields group resource x.

Definition group_yields (group : metav1.APIGroup) (x : string) : Prop :=
  exists version, In version (metav1.Versions group) /\ version_yields group version x.

End DiscoveryPredicates.

(** The catalog [dc] with its group list replaced by [groups]; the
    resource lists stay. *)
Definition with_groups (dc : discovery.DiscoveryInterface)
    (groups : list metav1.APIGroup) : discovery.DiscoveryInterface :=
  discovery.mkDiscoveryInterface
    (Some (metav1.mkAPIGroupList groups), None)
    (discovery.ServerResourcesForGroupVersion dc).

(** ** Data for the examples *)

(** A catalog of four groups: one whose second version cannot be fetched,
    one that serves the same kind in two versions, the unnamed core group,
    and one whose resource list is nil. *)
Definition gv (groupVersion : string) : metav1.GroupVersionForDiscovery :=
  metav1.mkGroupVersionForDiscovery groupVersion EmptyString.

Definition hubGroups : list metav1.APIGroup :=
  [metav1.mkAPIGroup "apps.open-cluster-management.io"
     [gv "apps.open-cluster-management.io/v1";
      gv "apps.open-cluster-management.io/v1beta1"];
   metav1.mkAPIGroup "cluster.open-cluster-management.io"
     [gv "cluster.open-cluster-management.io/v1";
      gv "cluster.open-cluster-management.io/v1beta1"];
   metav1.mkAPIGroup "" [gv "v1"];
   metav1.mkAPIGroup "velero.io" [gv "velero.io/v1"]].

Definition hubResources (groupVersion : string)
  : option metav1.APIResourceList * option error :=
  if String.eqb groupVersion "apps.open-cluster-management.io/v1" then
    (Some (metav1.mkAPIResourceList
             [metav1.mkAPIResource "channels" "Channel";
              metav1.mkAPIResource "subscriptions" "Subscription";
              metav1.mkAPIResource "placementrules" "PlacementRule"]), None)
  else if String.eqb groupVersion "apps.open-cluster-management.io/v1beta1" then
    (None, Some "the server is currently unable to handle the request"%string)
  else if String.eqb groupVersion "cluster.open-cluster-management.io/v1" then
    (Some (metav1.mkAPIResourceList
             [metav1.mkAPIResource "managedclusters" "ManagedCluster"]), None)
  else if String.eqb groupVersion "cluster.open-cluster-management.io/v1beta1" then
    (Some (metav1.mkAPIResourceList
             [metav1.mkAPIResource "managedclusters" "ManagedCluster";
              metav1.mkAPIResource "managedclustersets" "ManagedClusterSet"]), None)
  else if String.eqb groupVersion "v1" then
    (Some (metav1.mkAPIResourceList
             [metav1.mkAPIResource "pods" "Pod";
              metav1.mkAPIResource "secrets" "Secret"]), None)
  else (None, None).

Definition hubCatalog : discovery.DiscoveryInterface :=
  discovery.mkDiscoveryInterface
    (Some (metav1.mkAPIGroupList hubGroups), None) hubResources.

(** The exclusions: one full name, one bare kind, and one string that is
    only a suffix of an offered name. *)
Definition hubBackup : veleroapi.Backup :=
  veleroapi.mkBackup
    (veleroapi.mkBackupSpec
       ["subscription.apps.open-cluster-management.io";
        "managedclusterset";
        "cluster.cluster.open-cluster-management.io";
        "rule"]%string).

(** A name of 130 bytes, for the truncating case. *)
Definition longName : string :=
  string_of_list_ascii (repeat "a"%char 130).

Definition veleroOwner : metav1.OwnerReference :=
  metav1.mkOwnerReference "Velero" "oadp".

Definition location (namespace phase : string)
    (refs : option (list metav1.OwnerReference)) : veleroapi.BackupStorageLocation :=
  veleroapi.mkBackupStorageLocation namespace refs
    (veleroapi.mkBackupStorageLocationStatus phase).

(** A mapper and a dynamic client for the cluster-version singleton: the
    mapper resolves the kind, and the client [listing items] lists [items]
    without error. *)
Definition clusterVersionKind : schema.GroupKind :=
  schema.mkGroupKind "config.openshift.io" "ClusterVersion".

Definition clusterVersionMapping : meta.RESTMapping :=
  meta.mkRESTMapping
    (schema.mkGroupVersionResource "config.openshift.io" "v1" "clusterversions").

Definition clusterVersionMapper : restmapper.DeferredDiscoveryRESTMapper :=
  restmapper.mkDeferredDiscoveryRESTMapper (fun _ _ => (Some clusterVersionMapping, None)).

Definition listing (items : option unstructured.UnstructuredList) : dynamic.Interface :=
  dynamic.mkInterface (fun _ => Some (dynamic.mkResourceInterface (items, None))).

Definition clusterVersion (spec : unstructured.Value) : unstructured.Unstructured :=
  unstructured.mkUnstructured
    (Some (<["kind" := unstructured.VString "ClusterVersion"]>
             (<["spec" := spec]> ∅))).

Definition specWithID (id : unstructured.Value) : unstructured.Value :=
  unstructured.VMap
    (<["channel" := unstructured.VString "stable-4.9"]>
       (<["clusterID" := id]> ∅)).

(** The payload of an item has the shape the loop over [spec] can read:
    no payload, no [spec], or a [spec] map whose [clusterID], when there is
    one, is a string. *)
Definition clusterID_shaped (item : unstructured.Unstructured) : bool :=
  match unstructured.Object item with
  | None => true
  | Some object =>
      match object !! "spec"%string with
      | None | Some unstructured.VNil => true
      | Some (unstructured.VMap spec) =>
          match spec !! "clusterID"%string with
          | None | Some (unstructured.VString _) => true
          | Some _ => false
          end
      | Some _ => false
      end
  end.

(** Go's [Format] for the layout [20060102150405]: four digits of year
    and two digits each of month, day, hour, minute and second, all
    zero-padded. *)
Definition digitChar (d : Z) : ascii := ascii_of_N (Z.to_N (48 + d)).

Definition format2 (n : Z) (rest : string) : string :=
  String (digitChar (n / 10)) (String (digitChar (n mod 10)) rest).

Definition format4 (n : Z) (rest : string) : string :=
  String (digitChar (n / 1000))
    (String (digitChar (n / 100 mod 10)) (format2 (n mod 100) rest)).

Definition formatTimestamp (t : gotime.Time) : string :=
  format4 (gotime.Year t)
    (format2 (gotime.Month t)
       (format2 (gotime.Day t)
          (format2 (gotime.Hour t)
             (format2 (gotime.Minute t)
                (format2 (gotime.Second t) EmptyString))))).

(** A date and time of the calendar, years 0 to 9999, with no fraction of
    a second. *)
Definition validTimestamp (t : gotime.Time) : bool :=
  (0 <=? gotime.Year t) && (gotime.Year t <? 10000)
  && (1 <=? gotime.Month t) && (gotime.Month t <=? 12)
  && (1 <=? gotime.Day t) && (gotime.Day t <=? gotime.daysIn (gotime.Month t) (gotime.Year t))
  && (0 <=? gotime.Hour t) && (gotime.Hour t <? 24)
  && (0 <=? gotime.Minute t) && (gotime.Minute t <? 60)
  && (0 <=? gotime.Second t) && (gotime.Second t <? 60)
  && (gotime.Nanosecond t =? 0).

(** The first [n] bytes of the string exist and are digits. *)
Fixpoint leading_digits (n : nat) (s : string) : bool :=
  match n with
  | O => true
  | S n' =>
      match s with
      | String c s' => gotime.isDigit c && leading_digits n' s'
      | EmptyString => false
      end
  end.

(** The segment has the form [YYYYMMDDHHMMSS]: fourteen bytes, all
    digits. *)
Definition is_YYYYMMDDHHMMSS (segment : string) : bool :=
  leading_digits 14 segment && (String.length segment =? 14)%nat.

(** * Properties *)

(** ** Byte strings: taking, dropping, membership *)

Section StringFacts.

Implicit Types s t pre post : string.

Lemma length_append s t :
  String.length (s +:+ t) = (String.length s + String.length t)%nat.
Proof. induction s as [|c s IH]; simpl; [reflexivity | now rewrite IH]. Qed.

Lemma len_append s t : len (s +:+ t) = len s + len t.
Proof. unfold len. rewrite length_append. lia. Qed.

Lemma len_nonneg s : 0 <= len s.
Proof. unfold len. lia. Qed.

Lemma append_empty_r s : s +:+ EmptyString = s.
Proof. induction s as [|c s IH]; simpl; [reflexivity | now rewrite IH]. Qed.

Lemma append_assoc s t u : (s +:+ t) +:+ u = s +:+ (t +:+ u).
Proof. induction s as [|c s IH]; simpl; [reflexivity | now rewrite IH]. Qed.

Lemma str_take_drop n s : str_take n s +:+ str_drop n s = s.
Proof.
  revert s; induction n as [|n IH]; intros [|c s]; simpl; try reflexivity.
  now rewrite IH.
Qed.

Lemma str_take_length n s :
  String.length (str_take n s) = Nat.min n (String.length s).
Proof.
  revert s; induction n as [|n IH]; intros [|c s]; simpl; try reflexivity.
  now rewrite IH.
Qed.

Lemma str_take_app pre post : str_take (String.length pre) (pre +:+ post) = pre.
Proof. induction pre as [|c pre IH]; simpl; [now destruct post | now rewrite IH]. Qed.

Lemma str_drop_app pre post : str_drop (String.length pre) (pre +:+ post) = post.
Proof. induction pre as [|c pre IH]; simpl; [reflexivity | exact IH]. Qed.

Lemma str_take_all s : str_take (String.length s) s = s.
Proof. induction s as [|c s IH]; simpl; [reflexivity | now rewrite IH]. Qed.

Lemma str_mem_append c s t : str_mem c (s +:+ t) = str_mem c s || str_mem c t.
Proof.
  induction s as [|d s IH]; simpl; [reflexivity |].
  rewrite IH. now rewrite orb_assoc.
Qed.

(** A string that holds the byte splits at its last occurrence. *)
Lemma str_mem_split_last c s :
  str_mem c s = true ->
  exists pre post, s = pre +:+ String c post /\ str_mem c post = false.
Proof.
  induction s as [|d s IH]; simpl; [discriminate |].
  intros Hmem. destruct (str_mem c s) eqn:Hs.
  - destruct (IH eq_refl) as (pre & post & -> & Hpost).
    now exists (String d pre), post.
  - rewrite orb_false_r in Hmem. apply Ascii.eqb_eq in Hmem. subst d.
    now exists EmptyString, s.
Qed.

(** The slice expressions, inside their bounds. *)
Lemma slice_to_app pre post : slice_to (pre +:+ post) (len pre) = Done pre.
Proof.
  unfold slice_to, slice_str. rewrite len_append.
  pose proof (len_nonneg pre). pose proof (len_nonneg post).
  replace ((0 <=? 0) && (0 <=? len pre) && (len pre <=? len pre + len post))
    with true by (symmetry; rewrite !andb_true_iff, !Z.leb_le; lia).
  unfold len. rewrite Z.sub_0_r, Nat2Z.id. simpl. now rewrite str_take_app.
Qed.

Lemma slice_from_app pre post : slice_from (pre +:+ post) (len pre) = Done post.
Proof.
  unfold slice_from, slice_str. rewrite len_append.
  pose proof (len_nonneg pre). pose proof (len_nonneg post).
  replace ((0 <=? len pre) && (len pre <=? len pre + len post)
           && (len pre + len post <=? len pre + len post))
    with true by (symmetry; rewrite !andb_true_iff, !Z.leb_le; lia).
  unfold len. rewrite Nat2Z.id, str_drop_app.
  replace (Z.to_nat (Z.of_nat (String.length pre) + Z.of_nat (String.length post)
                     - Z.of_nat (String.length pre)))
    with (String.length post) by lia.
  now rewrite str_take_all.
Qed.

End StringFacts.

(** ** [strings.HasPrefix], [HasSuffix], [Index], [LastIndex], [Trim] *)

Section GoStringsFacts.

Implicit Types s t pre post : string.

Lemma HasSuffix_spec s suffix :
  gostrings.HasSuffix s suffix = true <-> ends_with s suffix.
Proof.
  unfold gostrings.HasSuffix, ends_with, len. split.
  - rewrite andb_true_iff, Z.leb_le, String.eqb_eq.
    set (n := (String.length s - String.length suffix)%nat). intros [Hle Heq].
    exists (str_take n s). clearbody n. subst suffix. symmetry. apply str_take_drop.
  - intros [pre ->]. rewrite length_append.
    replace (String.length pre + String.length suffix - String.length suffix)%nat
      with (String.length pre) by lia.
    rewrite str_drop_app, String.eqb_refl, andb_true_r. apply Z.leb_le. lia.
Qed.

Lemma HasSuffix_empty s : gostrings.HasSuffix s EmptyString = true.
Proof. apply HasSuffix_spec. exists s. symmetry. apply append_empty_r. Qed.

(** A one-byte prefix test looks at the first byte only. *)
Lemma HasPrefix_byte s c :
  gostrings.HasPrefix s (String c EmptyString)
  = match s with
    | EmptyString => false
    | String d _ => Ascii.eqb d c
    end.
Proof.
  destruct s as [|d s]; [reflexivity |].
  unfold gostrings.HasPrefix, len.
  assert ((Z.of_nat (String.length (String c EmptyString))
           <=? Z.of_nat (String.length (String d s))) = true) as ->
    by (apply Z.leb_le; simpl String.length; lia).
  simpl. destruct (Ascii.eqb d c); reflexivity.
Qed.

Lemma Index_from_eq s substr i :
  gostrings.Index_from s substr i
  = if gostrings.HasPrefix s substr then i
    else match s with
         | EmptyString => -1
         | String _ s' => gostrings.Index_from s' substr (i + 1)
         end.
Proof. destruct s; reflexivity. Qed.

Lemma LastIndex_from_eq s substr i :
  gostrings.LastIndex_from s substr i
  = let here := if gostrings.HasPrefix s substr then i else -1 in
    match s with
    | EmptyString => here
    | String _ s' =>
        let later := gostrings.LastIndex_from s' substr (i + 1) in
        if later =? -1 then here else later
    end.
Proof. destruct s; reflexivity. Qed.

Lemma Index_from_absent s c i :
  str_mem c s = false -> gostrings.Index_from s (String c EmptyString) i = -1.
Proof.
  revert i; induction s as [|d s IH]; intros i Hmem;
    rewrite Index_from_eq, HasPrefix_byte; [reflexivity |].
  simpl in Hmem. apply orb_false_elim in Hmem as [Hd Hs].
  rewrite Ascii.eqb_sym, Hd. now apply IH.
Qed.

Lemma Index_from_first pre post c i :
  str_mem c pre = false ->
  gostrings.Index_from (pre +:+ String c post) (String c EmptyString) i = i + len pre.
Proof.
  revert i; induction pre as [|d pre IH]; intros i Hmem;
    rewrite Index_from_eq; simpl String.append; rewrite HasPrefix_byte.
  - rewrite Ascii.eqb_refl. unfold len; simpl; lia.
  - simpl in Hmem. apply orb_false_elim in Hmem as [Hd Hs].
    rewrite Ascii.eqb_sym, Hd, (IH _ Hs).
    unfold len; simpl String.length; lia.
Qed.

Lemma LastIndex_from_absent s c i :
  str_mem c s = false -> gostrings.LastIndex_from s (String c EmptyString) i = -1.
Proof.
  revert i; induction s as [|d s IH]; intros i Hmem;
    rewrite LastIndex_from_eq, HasPrefix_byte; [reflexivity |].
  simpl in Hmem. apply orb_false_elim in Hmem as [Hd Hs].
  cbv zeta. rewrite Ascii.eqb_sym, Hd, (IH _ Hs). reflexivity.
Qed.

Lemma LastIndex_from_last pre post c i :
  0 <= i ->
  str_mem c post = false ->
  gostrings.LastIndex_from (pre +:+ String c post) (String c EmptyString) i = i + len pre.
Proof.
  intros Hi Hpost. revert i Hi; induction pre as [|d pre IH]; intros i Hi;
    rewrite LastIndex_from_eq; simpl String.append; rewrite HasPrefix_byte; cbv zeta.
  - rewrite Ascii.eqb_refl, (LastIndex_from_absent _ _ _ Hpost).
    unfold len; simpl; lia.
  - rewrite (IH (i + 1)) by lia.
    pose proof (len_nonneg pre).
    replace (i + 1 + len pre =? -1) with false by (symmetry; apply Z.eqb_neq; lia).
    unfold len; simpl String.length; lia.
Qed.

Lemma str_rev_involutive s : str_rev (str_rev s) = s.
Proof.
  unfold str_rev.
  now rewrite list_ascii_of_string_of_list_ascii, rev_involutive,
    string_of_list_ascii_of_string.
Qed.

Lemma str_mem_In c s : str_mem c s = true <-> In c (list_ascii_of_string s).
Proof.
  induction s as [|d s IH]; simpl; [split; [discriminate | tauto] |].
  rewrite orb_true_iff, IH, Ascii.eqb_eq. split; intros [H|H]; auto.
Qed.

Lemma str_mem_rev c s : str_mem c (str_rev s) = str_mem c s.
Proof.
  apply eq_true_iff_eq. rewrite !str_mem_In. unfold str_rev.
  rewrite list_ascii_of_string_of_list_ascii. symmetry. apply in_rev.
Qed.

Lemma TrimLeft_absent s c :
  str_mem c s = false -> gostrings.TrimLeft s (String c EmptyString) = s.
Proof.
  destruct s as [|d s]; simpl; [reflexivity |].
  intros Hmem. apply orb_false_elim in Hmem as [Hd _].
  now rewrite orb_false_r, Ascii.eqb_sym, Hd.
Qed.

(** Trimming a cut byte off a segment that starts with it and holds it
    nowhere else leaves the segment after it. *)
Lemma Trim_segment post c :
  str_mem c post = false ->
  gostrings.Trim (String c post) (String c EmptyString) = post.
Proof.
  intros Hpost. unfold gostrings.Trim, gostrings.TrimRight.
  simpl gostrings.TrimLeft. rewrite Ascii.eqb_refl. simpl.
  rewrite (TrimLeft_absent _ _ Hpost), TrimLeft_absent by now rewrite str_mem_rev.
  apply str_rev_involutive.
Qed.

End GoStringsFacts.

(** ** Collection utilities *)

Section CollectionFacts.

Implicit Types (slice : list string) (value val item : string).

Lemma find_from_found slice val i :
  snd (controllers.find_from slice val i) = true <-> In val slice.
Proof.
  revert i; induction slice as [|item rest IH]; intros i; simpl.
  - split; [discriminate | tauto].
  - destruct (String.eqb item val) eqn:E; simpl.
    + apply String.eqb_eq in E. tauto.
    + apply String.eqb_neq in E. rewrite IH. tauto.
Qed.

Lemma findValue_spec slice val :
  controllers.findValue slice val = true <-> In val slice.
Proof.
  unfold controllers.findValue, controllers.find.
  rewrite <- (find_from_found slice val 0).
  now destruct (controllers.find_from slice val 0).
Qed.

Lemma findValue_false slice val :
  controllers.findValue slice val = false <-> ~ In val slice.
Proof.
  rewrite <- findValue_spec. now destruct (controllers.findValue slice val).
Qed.

Lemma appendUnique_eq slice value :
  controllers.appendUnique slice value
  = if controllers.findValue slice value then slice else slice ++ [value].
Proof.
  unfold controllers.appendUnique, controllers.findValue.
  now destruct (controllers.find slice value) as [? []].
Qed.

Lemma appendUnique_In slice value x :
  In x (controllers.appendUnique slice value) <-> In x slice \/ x = value.
Proof.
  rewrite appendUnique_eq.
  destruct (controllers.findValue slice value) eqn:E.
  - apply findValue_spec in E. split; [tauto | intros [H | ->]; assumption].
  - rewrite in_app_iff. simpl. intuition congruence.
Qed.

Lemma appendUnique_NoDup slice value :
  NoDup slice -> NoDup (controllers.appendUnique slice value).
Proof.
  intros Hnd. rewrite appendUnique_eq.
  destruct (controllers.findValue slice value) eqn:E; [assumption |].
  apply findValue_false in E.
  apply NoDup_app. split_and!; [exact Hnd | | apply NoDup_singleton].
  intros x Hx%list_elem_of_In Hv%list_elem_of_In.
  simpl in Hv. destruct Hv as [<- | []]. contradiction.
Qed.

Lemma appendUnique_idempotent slice value :
  controllers.appendUnique (controllers.appendUnique slice value) value
  = controllers.appendUnique slice value.
Proof.
  rewrite (appendUnique_eq (controllers.appendUnique slice value)).
  replace (controllers.findValue (controllers.appendUnique slice value) value)
    with true; [reflexivity |].
  symmetry. apply findValue_spec, appendUnique_In. now right.
Qed.

Lemma occurrences_app value slice1 slice2 :
  occurrences value (slice1 ++ slice2)
  = (occurrences value slice1 + occurrences value slice2)%nat.
Proof. induction slice1 as [|item rest IH]; simpl; [reflexivity | rewrite IH; lia]. Qed.

Lemma occurrences_pos value slice :
  (0 < occurrences value slice)%nat <-> In value slice.
Proof.
  induction slice as [|item rest IH]; simpl; [split; [lia | tauto] |].
  destruct (String.eqb item value) eqn:E.
  - apply String.eqb_eq in E. split; [auto | lia].
  - apply String.eqb_neq in E. rewrite <- IH. split; [intros; right; lia |].
    intros [? | ?]; [contradiction | lia].
Qed.

Lemma occurrences_appendUnique value slice :
  occurrences value (controllers.appendUnique slice value)
  = Nat.max 1 (occurrences value slice).
Proof.
  rewrite appendUnique_eq.
  destruct (controllers.findValue slice value) eqn:E.
  - apply findValue_spec, occurrences_pos in E. lia.
  - apply findValue_false in E. rewrite occurrences_app. simpl.
    rewrite String.eqb_refl.
    assert (occurrences value slice = 0%nat); [| lia].
    destruct (occurrences value slice) eqn:Ho; [reflexivity |].
    exfalso. apply E, occurrences_pos. lia.
Qed.

Lemma findSuffix_from_spec slice val i :
  (exists item, In item slice /\ ends_with val item) ->
  exists n item,
    controllers.findSuffix_from slice val i = (i + Z.of_nat n, true)
    /\ slice !! n = Some item
    /\ ends_with val item
    /\ forall m item', (m < n)%nat -> slice !! m = Some item' -> ~ ends_with val item'.
Proof.
  revert i; induction slice as [|item0 rest IH]; intros i (item & Hin & Hsuf).
  - destruct Hin.
  - simpl. destruct (gostrings.HasSuffix val item0) eqn:E.
    + exists 0%nat, item0. rewrite Z.add_0_r. repeat split; [now apply HasSuffix_spec |].
      intros m item' Hm. lia.
    + assert (Hrest : exists item, In item rest /\ ends_with val item).
      { destruct Hin as [-> | Hin]; [| now exists item].
        apply HasSuffix_spec in Hsuf. congruence. }
      destruct (IH (i + 1) Hrest) as (n & it & Heq & Hlook & Hends & Hfirst).
      exists (S n), it. rewrite Heq. repeat split; [f_equal; lia | exact Hlook | exact Hends |].
      intros [|m] item' Hm Hl; simpl in Hl.
      * injection Hl as <-. rewrite <- HasSuffix_spec. congruence.
      * apply (Hfirst m item'); [lia | exact Hl].
Qed.

End CollectionFacts.

(** C9, as the specification states it, fails: a starting sequence that
    already holds the value twice keeps both occurrences. *)
Lemma appendUnique_twice_not_single :
  occurrences "ns"
    (controllers.appendUnique
       (controllers.appendUnique ["ns"; "ns"]%string "ns") "ns") <> 1%nat.
Proof. vm_compute. discriminate. Qed.

(** C9 (amended): applying [appendUnique] twice with the same value gives
    what one application gives, in which the value occurs [max 1 n] times,
    [n] being its occurrences in the starting sequence; so the value occurs
    exactly once whenever the starting sequence holds it at most once. *)
Theorem appendUnique_twice_occurrences (slice : list string) (value : string) :
  let twice := controllers.appendUnique (controllers.appendUnique slice value) value in
  twice = controllers.appendUnique slice value
  /\ occurrences value twice = Nat.max 1 (occurrences value slice)
  /\ ((occurrences value slice <= 1)%nat -> occurrences value twice = 1%nat).
Proof.
  cbv zeta. rewrite appendUnique_idempotent, occurrences_appendUnique.
  repeat split. lia.
Qed.

Lemma appendUnique_twice_occurrences_witness :
  (occurrences "ns" ["velero"; "ns"]%string <= 1)%nat
  /\ occurrences "ns"
       (controllers.appendUnique
          (controllers.appendUnique ["velero"; "ns"]%string "ns") "ns") = 1%nat.
Proof.
  split.
  - vm_compute. lia.
  - apply (appendUnique_twice_occurrences ["velero"; "ns"]%string "ns").
    vm_compute. lia.
Defined.

(** C10: when the pattern sequence holds the empty string, [findSuffix]
    finds a match for every value, and the index it returns is that of the
    first element of the sequence that is a suffix of the value. *)
Theorem findSuffix_empty_pattern (slice : list string) (val : string) :
  In EmptyString slice ->
  exists (n : nat) (item : string),
    controllers.findSuffix slice val = (Z.of_nat n, true)
    /\ slice !! n = Some item
    /\ ends_with val item
    /\ forall m item', (m < n)%nat -> slice !! m = Some item' -> ~ ends_with val item'.
Proof.
  intros Hin. unfold controllers.findSuffix.
  destruct (findSuffix_from_spec slice val 0) as (n & item & Heq & H).
  - exists EmptyString. split; [exact Hin |]. apply HasSuffix_spec, HasSuffix_empty.
  - exists n, item. now rewrite Heq.
Qed.

Lemma findSuffix_empty_pattern_witness :
  exists (n : nat) (item : string),
    controllers.findSuffix ["pod"; ""; "secret.v1"]%string "clusterpod" = (Z.of_nat n, true)
    /\ ["pod"; ""; "secret.v1"]%string !! n = Some item
    /\ ends_with "clusterpod" item
    /\ forall m item', (m < n)%nat ->
         ["pod"; ""; "secret.v1"]%string !! m = Some item' -> ~ ends_with "clusterpod" item'.
Proof.
  apply (findSuffix_empty_pattern ["pod"; ""; "secret.v1"]%string "clusterpod").
  simpl. auto.
Defined.

(** The empty pattern alone matches at its own index. *)
Example findSuffix_only_empty :
  controllers.findSuffix ["secret"; ""]%string "configmap" = (1, true).
Proof. reflexivity. Qed.

Example find_first : controllers.find ["abc"; "def"]%string "abc" = (0, true).
Proof. reflexivity. Qed.

Example find_absent : controllers.find ["abc"; "def"]%string "zzz" = (-1, false).
Proof. reflexivity. Qed.

(** ** Naming and timestamp utilities *)

Lemma slice_to_prefix (s : string) (hi : Z) :
  0 <= hi <= len s -> slice_to s hi = Done (str_take (Z.to_nat hi) s).
Proof.
  intros [Hlo Hhi]. unfold slice_to, slice_str.
  replace ((0 <=? 0) && (0 <=? hi) && (hi <=? len s)) with true
    by (symmetry; rewrite !andb_true_iff, !Z.leb_le; lia).
  now rewrite Z.sub_0_r.
Qed.

(** C7: the restore name is the concatenation with one dash when that has
    at most 252 bytes, and its first 252 bytes when it is longer; it never
    has more than 252 bytes. *)
Theorem getValidKsRestoreName_spec (clusterRestoreName backupName : string) :
  let fullName := clusterRestoreName +:+ "-" +:+ backupName in
  (len fullName <= 252 ->
     controllers.getValidKsRestoreName clusterRestoreName backupName = Done fullName)
  /\ (252 < len fullName ->
        exists name rest,
          controllers.getValidKsRestoreName clusterRestoreName backupName = Done name
          /\ fullName = name +:+ rest
          /\ len name = 252)
  /\ (exists name,
        controllers.getValidKsRestoreName clusterRestoreName backupName = Done name
        /\ len name <= 252).
Proof.
  intros fullName. unfold controllers.getValidKsRestoreName. fold fullName.
  destruct (len fullName >? 252) eqn:E.
  - apply Z.gtb_lt in E. rewrite slice_to_prefix by lia.
    assert (Hlen : len (str_take (Z.to_nat 252) fullName) = 252).
    { unfold len in *. rewrite str_take_length. lia. }
    split_and!.
    + lia.
    + intros _. exists (str_take (Z.to_nat 252) fullName), (str_drop (Z.to_nat 252) fullName).
      split_and!; [reflexivity | symmetry; apply str_take_drop | exact Hlen].
    + eexists. split; [reflexivity | lia].
  - assert (len fullName <= 252) by (rewrite Z.gtb_ltb in E; apply Z.ltb_ge in E; lia).
    split_and!; [reflexivity | lia | eexists; split; [reflexivity | assumption]].
Qed.

Lemma getValidKsRestoreName_spec_witness :
  controllers.getValidKsRestoreName "cluster1" "backup1" = Done "cluster1-backup1"%string
  /\ exists name rest,
       controllers.getValidKsRestoreName longName longName = Done name
       /\ longName +:+ "-" +:+ longName = name +:+ rest
       /\ len name = 252.
Proof.
  split.
  - apply (getValidKsRestoreName_spec "cluster1" "backup1"). vm_compute. discriminate.
  - apply (getValidKsRestoreName_spec longName longName). vm_compute. reflexivity.
Defined.

(** For any parser: a name without any dash gives the zero time and no
    error; a name with a dash splits at its last dash into a prefix and a
    dash-free segment, and the function returns what the parser returns for
    that segment under the layout [20060102150405]. *)
Lemma getBackupTimestamp_spec
    (time_Parse : string -> string -> gotime.Time * option error)
    (backupName : string) :
  (str_mem "-" backupName = false ->
     controllers.getBackupTimestamp time_Parse backupName = Done (gotime.zero, None))
  /\ (str_mem "-" backupName = true ->
        exists pre segment,
          backupName = pre +:+ "-" +:+ segment
          /\ str_mem "-" segment = false
          /\ controllers.getBackupTimestamp time_Parse backupName
             = Done (time_Parse "20060102150405" segment)).
Proof.
  unfold controllers.getBackupTimestamp, gostrings.LastIndex. split.
  - intros Hno. now rewrite LastIndex_from_absent.
  - intros Hmem. destruct (str_mem_split_last _ _ Hmem) as (pre & segment & -> & Hseg).
    exists pre, segment. split_and!; [reflexivity | exact Hseg |].
    rewrite LastIndex_from_last by (lia || assumption).
    pose proof (len_nonneg pre).
    replace (0 + len pre =? -1) with false by (symmetry; apply Z.eqb_neq; lia).
    simpl negb. cbv iota. rewrite Z.add_0_l, slice_from_app. simpl exec_bind.
    now rewrite Trim_segment.
Qed.

(** The examples of the specification, with Go's parser for the layout. *)
Example getBackupTimestamp_parses :
  controllers.getBackupTimestamp gotime.Parse "acm-resources-schedule-20230101120000"
  = Done (gotime.mkTime 2023 1 1 12 0 0 0, None).
Proof. reflexivity. Qed.

Example getBackupTimestamp_not_a_timestamp :
  controllers.getBackupTimestamp gotime.Parse "acm-resources-schedule-notatimestamp"
  = Done (gotime.zero, Some gotime.parseError).
Proof. reflexivity. Qed.

(** A schedule name without a timestamp still has dashes: its last segment
    is handed to the parser, which refuses it. *)
Example getBackupTimestamp_schedule_name :
  controllers.getBackupTimestamp gotime.Parse "acm-resources-schedule"
  = Done (gotime.zero, Some gotime.parseError).
Proof. reflexivity. Qed.

(** ** Resource name codec *)

(** C8: [getResourceDetails] splits at the first dot: a name made of a
    dot-free prefix, a dot and a remainder gives the prefix and the whole
    remainder, further dots included; a name without a dot gives itself and
    the empty string. *)
Theorem getResourceDetails_spec (resourceName : string) :
  (forall kind group,
      resourceName = kind +:+ "." +:+ group ->
      str_mem "." kind = false ->
      controllers.getResourceDetails resourceName = Done (kind, group))
  /\ (str_mem "." resourceName = false ->
        controllers.getResourceDetails resourceName = Done (resourceName, EmptyString)).
Proof.
  unfold controllers.getResourceDetails, gostrings.Index. split.
  - intros kind group -> Hkind.
    change (kind +:+ "." +:+ group) with (kind +:+ String "." group).
    rewrite Index_from_first by assumption.
    pose proof (len_nonneg kind).
    replace (0 + len kind >? -1) with true by (symmetry; apply Z.gtb_lt; lia).
    rewrite Z.add_0_l, slice_to_app. simpl exec_bind.
    replace (kind +:+ String "." group) with ((kind +:+ ".") +:+ group)
      by (rewrite append_assoc; reflexivity).
    replace (len kind + 1) with (len (kind +:+ "."))
      by (rewrite len_append; reflexivity).
    now rewrite slice_from_app.
  - intros Hno. now rewrite Index_from_absent.
Qed.

Lemma getResourceDetails_spec_witness :
  controllers.getResourceDetails "mykind.config.openshift.io"
    = Done ("mykind", "config.openshift.io")%string
  /\ controllers.getResourceDetails "mykind" = Done ("mykind", "")%string.
Proof.
  split.
  - apply (getResourceDetails_spec "mykind.config.openshift.io"); reflexivity.
  - apply (getResourceDetails_spec "mykind"). reflexivity.
Defined.

(** ** Storage location validator *)

Section StorageLocationFacts.

Implicit Types (items before after : list veleroapi.BackupStorageLocation).

Lemma scanOwnerReferences_spec refs namespace st :
  controllers.scanOwnerReferences refs namespace st
  = if existsb (fun ref => negb (String.eqb (metav1.OwnerReference_Kind ref) "")) refs
    then (true, namespace) else st.
Proof.
  induction refs as [|ref rest IH]; simpl; [reflexivity |].
  destruct (String.eqb (metav1.OwnerReference_Kind ref) ""); simpl; [exact IH | reflexivity].
Qed.

(** One turn of the outer loop, entered with the flag unset. *)
Lemma scanStorageLocations_step item rest namespace0 :
  controllers.scanStorageLocations (item :: rest) (false, namespace0)
  = if qualifies item then (true, veleroapi.Namespace item)
    else controllers.scanStorageLocations rest (false, namespace0).
Proof.
  unfold qualifies, has_owner_kind. simpl.
  unfold veleroapi.BackupStorageLocationPhaseAvailable.
  destruct (veleroapi.OwnerReferences item) as [refs|]; [| reflexivity].
  rewrite scanOwnerReferences_spec.
  destruct (String.eqb (veleroapi.Phase (veleroapi.Status item)) "Available");
    [| now rewrite andb_false_r].
  rewrite andb_true_r.
  now destruct (existsb _ refs).
Qed.

Lemma scanStorageLocations_none items namespace0 :
  Forall (fun location => qualifies location = false) items ->
  controllers.scanStorageLocations items (false, namespace0) = (false, namespace0).
Proof.
  induction 1 as [|item rest Hq _ IH]; [reflexivity |].
  now rewrite scanStorageLocations_step, Hq.
Qed.

Lemma scanStorageLocations_first before location after namespace0 :
  Forall (fun l => qualifies l = false) before ->
  qualifies location = true ->
  controllers.scanStorageLocations (before ++ location :: after) (false, namespace0)
  = (true, veleroapi.Namespace location).
Proof.
  intros Hbefore Hq. induction Hbefore as [|item rest Hitem _ IH]; simpl app.
  - now rewrite scanStorageLocations_step, Hq.
  - now rewrite scanStorageLocations_step, Hitem.
Qed.

End StorageLocationFacts.

(** C5: the validator returns [(true, ns)] with [ns] the namespace of the
    first location of the list that qualifies (an owner reference with a
    non-empty kind, and phase [Available]), whatever follows that location;
    when no location qualifies it returns [(false, "")]. *)
Theorem isValidStorageLocationDefined_spec
    (veleroStorageLocations : veleroapi.BackupStorageLocationList) :
  (forall before location after,
      veleroapi.Items veleroStorageLocations = before ++ location :: after ->
      Forall (fun l => qualifies l = false) before ->
      qualifies location = true ->
      controllers.isValidStorageLocationDefined veleroStorageLocations
      = (true, veleroapi.Namespace location))
  /\ (Forall (fun l => qualifies l = false) (veleroapi.Items veleroStorageLocations) ->
        controllers.isValidStorageLocationDefined veleroStorageLocations
        = (false, EmptyString)).
Proof.
  unfold controllers.isValidStorageLocationDefined. split.
  - intros before location after -> Hbefore Hq.
    now apply scanStorageLocations_first.
  - apply scanStorageLocations_none.
Qed.

Lemma isValidStorageLocationDefined_spec_witness :
  controllers.isValidStorageLocationDefined
    (veleroapi.mkBackupStorageLocationList
       [location "stray" "Available" None;
        location "pending" "Unavailable" (Some [veleroOwner]);
        location "velero-ns" "Available"
          (Some [metav1.mkOwnerReference "" "anonymous"; veleroOwner]);
        location "later" "Available" (Some [veleroOwner])])
  = (true, "velero-ns"%string)
  /\ controllers.isValidStorageLocationDefined
       (veleroapi.mkBackupStorageLocationList
          [location "velero-ns" "Unavailable" (Some [veleroOwner])])
     = (false, EmptyString).
Proof.
  split.
  - apply (proj1 (isValidStorageLocationDefined_spec _)
             [location "stray" "Available" None;
              location "pending" "Unavailable" (Some [veleroOwner])]
             (location "velero-ns" "Available"
                (Some [metav1.mkOwnerReference "" "anonymous"; veleroOwner]))
             [location "later" "Available" (Some [veleroOwner])]).
    + reflexivity.
    + repeat constructor.
    + reflexivity.
  - apply (proj2 (isValidStorageLocationDefined_spec _)). repeat constructor.
Defined.

(** ** Generic resource discovery *)

Section DiscoveryFacts.

Variable ToLower : string -> string.
Variable dc : discovery.DiscoveryInterface.
Variable excluded : list string.

(** Membership and duplicate-freedom through a loop that only ever adds
    to its accumulator. *)
Lemma fold_left_In {A : Type} (f : list string -> A -> list string)
    (P : A -> string -> Prop) :
  (forall acc a x, In x (f acc a) <-> In x acc \/ P a x) ->
  forall l acc x,
    In x (fold_left f l acc) <-> In x acc \/ exists a, In a l /\ P a x.
Proof.
  intros Hf l. induction l as [|a l IH]; intros acc x; simpl.
  - split; [auto | intros [H | (a & [] & _)]; exact H].
  - rewrite IH, Hf. split.
    + intros [[H | H] | (b & Hb & HP)]; eauto.
    + intros [H | (b & [<- | Hb] & HP)]; eauto.
Qed.

Lemma fold_left_NoDup {A : Type} (f : list string -> A -> list string) :
  (forall acc a, NoDup acc -> NoDup (f acc a)) ->
  forall l acc, NoDup acc -> NoDup (fold_left f l acc).
Proof.
  intros Hf l. induction l as [|a l IH]; intros acc Hacc; simpl; auto.
Qed.

Lemma visitResource_In group acc resource x :
  In x (controllers.visitResource ToLower excluded group acc resource)
  <-> In x acc \/ yields ToLower excluded group resource x.
Proof.
  unfold controllers.visitResource, yields.
  set (kind := ToLower (metav1.APIResource_Kind resource)).
  set (name := kind +:+ "." +:+ metav1.APIGroup_Name group).
  destruct (controllers.findValue excluded name) eqn:En;
    [apply findValue_spec in En | apply findValue_false in En];
    (destruct (controllers.findValue excluded kind) eqn:Ek;
     [apply findValue_spec in Ek | apply findValue_false in Ek]);
    cbn [negb andb]; rewrite ?appendUnique_In; clearbody name kind;
    intuition (subst; tauto).
Qed.

Lemma visitVersion_In group acc version x :
  In x (controllers.visitVersion ToLower dc excluded group acc version)
  <-> In x acc \/ version_yields ToLower dc excluded group version x.
Proof.
  unfold controllers.visitVersion, version_yields.
  destruct (discovery.ServerResourcesForGroupVersion dc (metav1.GroupVersion version))
    as [[rl|] [e|]].
  - split; [auto | intros [H | (? & ? & ? & _)]; [exact H | discriminate]].
  - destruct (String.eqb (metav1.APIGroup_Name group) "") eqn:E.
    + apply String.eqb_eq in E.
      split; [auto | intros [H | (? & ? & _ & Hne & _)]; [exact H | contradiction]].
    + apply String.eqb_neq in E.
      rewrite (fold_left_In _ (yields ToLower excluded group) (visitResource_In group)).
      split; intros [H | H]; auto; right.
      * destruct H as (r & Hr & Ha). now exists rl, r.
      * destruct H as (rl' & r & Heq & _ & Hr & Ha). injection Heq as <-. now exists r.
  - split; [auto | intros [H | (? & ? & ? & _)]; [exact H | discriminate]].
  - split; [auto | intros [H | (? & ? & ? & _)]; [exact H | discriminate]].
Qed.

Lemma visitGroup_In acc group x :
  In x (controllers.visitGroup ToLower dc excluded acc group)
  <-> In x acc \/ group_yields ToLower dc excluded group x.
Proof.
  unfold controllers.visitGroup, group_yields.
  apply (fold_left_In _ (version_yields ToLower dc excluded group)). intros. apply visitVersion_In.
Qed.

Lemma visitResource_NoDup group acc resource :
  NoDup acc -> NoDup (controllers.visitResource ToLower excluded group acc resource).
Proof.
  intros Hacc. unfold controllers.visitResource.
  destruct (negb _ && negb _); [now apply appendUnique_NoDup | exact Hacc].
Qed.

Lemma visitVersion_NoDup group acc version :
  NoDup acc -> NoDup (controllers.visitVersion ToLower dc excluded group acc version).
Proof.
  intros Hacc. unfold controllers.visitVersion.
  destruct (discovery.ServerResourcesForGroupVersion dc (metav1.GroupVersion version))
    as [[rl|] [e|]]; try exact Hacc.
  destruct (String.eqb (metav1.APIGroup_Name group) ""); [exact Hacc |].
  apply fold_left_NoDup; [| exact Hacc]. intros. now apply visitResource_NoDup.
Qed.

Lemma visitGroup_NoDup acc group :
  NoDup acc -> NoDup (controllers.visitGroup ToLower dc excluded acc group).
Proof.
  intros Hacc. unfold controllers.visitGroup.
  apply fold_left_NoDup; [| exact Hacc]. intros. now apply visitVersion_NoDup.
Qed.

(** A version whose fetch fails leaves the accumulator as it is. *)
Lemma visitVersion_failed group acc version :
  snd (discovery.ServerResourcesForGroupVersion dc (metav1.GroupVersion version)) <> None ->
  controllers.visitVersion ToLower dc excluded group acc version = acc.
Proof.
  unfold controllers.visitVersion.
  destruct (discovery.ServerResourcesForGroupVersion dc (metav1.GroupVersion version))
    as [rl [e|]]; simpl; [reflexivity | congruence].
Qed.

Lemma visitGroup_skips_failed acc name vbefore version vafter :
  snd (discovery.ServerResourcesForGroupVersion dc (metav1.GroupVersion version)) <> None ->
  controllers.visitGroup ToLower dc excluded acc
    (metav1.mkAPIGroup name (vbefore ++ version :: vafter))
  = controllers.visitGroup ToLower dc excluded acc
      (metav1.mkAPIGroup name (vbefore ++ vafter)).
Proof.
  intros Hfail. unfold controllers.visitGroup. simpl.
  rewrite !fold_left_app. simpl. now rewrite visitVersion_failed.
Qed.

End DiscoveryFacts.

(** C1: the result of the discovery has no duplicates, and a name is in it
    exactly when the catalog offers it (lowered kind, a dot, the group) and
    neither the name nor the bare lowered kind is an element of the
    exclusion list; so a name enters the result only if both are absent
    from the list, under string equality. *)
Theorem getGenericCRDFromAPIGroups_admission
    (ToLower : string -> string) (dc : discovery.DiscoveryInterface)
    (veleroBackup : veleroapi.Backup) :
  let resources := fst (controllers.getGenericCRDFromAPIGroups ToLower dc veleroBackup) in
  let excluded := veleroapi.ExcludedResources (veleroapi.Spec veleroBackup) in
  NoDup resources
  /\ forall name,
       In name resources
       <-> exists kind,
             offered ToLower dc name kind /\ ~ In name excluded /\ ~ In kind excluded.
Proof.
  cbv zeta. unfold controllers.getGenericCRDFromAPIGroups, offered.
  set (excluded := veleroapi.ExcludedResources (veleroapi.Spec veleroBackup)).
  destruct (discovery.ServerGroups dc) as [[gl|] [e|]]; simpl fst;
    try (split; [constructor |];
         intros name; split; [intros [] | intros (? & (? & ? & ? & ? & ? & ? & _) & _);
                                           discriminate]).
  split.
  - apply fold_left_NoDup; [| constructor]. intros. now apply visitGroup_NoDup.
  - intros name.
    rewrite (fold_left_In _ (group_yields ToLower dc excluded)
               (fun acc a x => visitGroup_In ToLower dc excluded acc a x)).
    split.
    + intros [[] | (group & Hg & version & Hv & rl & r & Hrl & Hne & Hr & -> & Hx & Hk)].
      exists (ToLower (metav1.APIResource_Kind r)). split_and!; [| exact Hx | exact Hk].
      exists gl, group, version, rl, r. split_and!; auto.
    + intros (kind & (gl' & group & version & rl & r & Hgl & Hg & Hv & Hrl & Hne & Hr & -> & ->)
              & Hx & Hk).
      injection Hgl as <-. right. exists group. split; [exact Hg |].
      exists version. split; [exact Hv |]. exists rl, r. split_and!; auto.
      split_and!; auto.
Qed.

Lemma getGenericCRDFromAPIGroups_admission_witness :
  In "managedcluster.cluster.open-cluster-management.io"%string
    (fst (controllers.getGenericCRDFromAPIGroups gostrings.ToLowerASCII hubCatalog hubBackup))
  /\ ~ In "subscription.apps.open-cluster-management.io"%string
       (fst (controllers.getGenericCRDFromAPIGroups gostrings.ToLowerASCII hubCatalog hubBackup)).
Proof.
  pose proof (getGenericCRDFromAPIGroups_admission gostrings.ToLowerASCII hubCatalog hubBackup)
    as [_ Hin].
  split.
  - apply Hin. exists "managedcluster"%string. split_and!.
    + exists (metav1.mkAPIGroupList hubGroups),
        (metav1.mkAPIGroup "cluster.open-cluster-management.io"
           [gv "cluster.open-cluster-management.io/v1";
            gv "cluster.open-cluster-management.io/v1beta1"]),
        (gv "cluster.open-cluster-management.io/v1"),
        (metav1.mkAPIResourceList [metav1.mkAPIResource "managedclusters" "ManagedCluster"]),
        (metav1.mkAPIResource "managedclusters" "ManagedCluster").
      split_and!; try reflexivity; simpl; auto; discriminate.
    + simpl. intros [H | [H | [H | [H | []]]]]; discriminate.
    + simpl. intros [H | [H | [H | [H | []]]]]; discriminate.
  - intros H. apply Hin in H as (kind & _ & Hname & _). apply Hname. simpl. auto.
Defined.

(** The whole result for the example catalog: the two versions of
    [ManagedCluster] give one name; the excluded name and the excluded kind
    are absent; the exclusions [rule] and
    [cluster.cluster.open-cluster-management.io], suffixes of offered
    names, exclude nothing; the core group and the failing version give
    nothing. *)
Example getGenericCRDFromAPIGroups_hub :
  controllers.getGenericCRDFromAPIGroups gostrings.ToLowerASCII hubCatalog hubBackup
  = (["channel.apps.open-cluster-management.io";
      "placementrule.apps.open-cluster-management.io";
      "managedcluster.cluster.open-cluster-management.io"]%string, None).
Proof. reflexivity. Qed.

(** Membership in a successful result, in terms of what the catalog
    offers. *)
Lemma getGeneric_In_offered (ToLower : string -> string)
    (dc : discovery.DiscoveryInterface) (veleroBackup : veleroapi.Backup) (name : string) :
  In name (fst (controllers.getGenericCRDFromAPIGroups ToLower dc veleroBackup))
  <-> exists kind,
        offered ToLower dc name kind
        /\ ~ In name (veleroapi.ExcludedResources (veleroapi.Spec veleroBackup))
        /\ ~ In kind (veleroapi.ExcludedResources (veleroapi.Spec veleroBackup)).
Proof.
  unfold controllers.getGenericCRDFromAPIGroups, offered.
  set (excluded := veleroapi.ExcludedResources (veleroapi.Spec veleroBackup)).
  destruct (discovery.ServerGroups dc) as [[gl|] [e|]]; simpl fst;
    try (split; [intros [] | intros (? & (? & ? & ? & ? & ? & ? & _) & _); discriminate]).
  rewrite (fold_left_In _ (group_yields ToLower dc excluded)
             (fun acc a x => visitGroup_In ToLower dc excluded acc a x)).
  split.
  - intros [[] | (group & Hg & version & Hv & rl & r & Hrl & Hne & Hr & -> & Hx & Hk)].
    exists (ToLower (metav1.APIResource_Kind r)). split_and!; [| exact Hx | exact Hk].
    exists gl, group, version, rl, r. split_and!; auto.
  - intros (kind & (gl' & group & version & rl & r & Hgl & Hg & Hv & Hrl & Hne & Hr & -> & ->)
            & Hx & Hk).
    injection Hgl as <-. right. exists group. split; [exact Hg |].
    exists version. split; [exact Hv |]. exists rl, r. split_and!; auto.
    split_and!; auto.
Qed.

(** C2: the discovery returns an error exactly when the fetch of the group
    list returns one, and then returns it at once, wrapped, with an empty
    result; an absent or empty group list gives an empty result and no
    error; and a group-version whose resource fetch fails is skipped while
    the others accumulate: the call succeeds, its result is the result the
    catalog without that group-version gives, and the names in it are
    exactly the names, not excluded, that the group-versions whose fetch
    succeeds offer, so every such name of a remaining group-version is
    returned. *)
Theorem getGenericCRDFromAPIGroups_errors
    (ToLower : string -> string) (dc : discovery.DiscoveryInterface)
    (veleroBackup : veleroapi.Backup) :
  (snd (controllers.getGenericCRDFromAPIGroups ToLower dc veleroBackup) <> None
   <-> snd (discovery.ServerGroups dc) <> None)
  /\ (forall e,
        snd (discovery.ServerGroups dc) = Some e ->
        controllers.getGenericCRDFromAPIGroups ToLower dc veleroBackup
        = ([], Some ("failed to get server groups: " +:+ e)))
  /\ (discovery.ServerGroups dc = (None, None) ->
        controllers.getGenericCRDFromAPIGroups ToLower dc veleroBackup = ([], None))
  /\ (discovery.ServerGroups dc = (Some (metav1.mkAPIGroupList []), None) ->
        controllers.getGenericCRDFromAPIGroups ToLower dc veleroBackup = ([], None))
  /\ (forall groupList before group after vbefore version vafter,
        discovery.ServerGroups dc = (Some groupList, None) ->
        metav1.Groups groupList = before ++ group :: after ->
        metav1.Versions group = vbefore ++ version :: vafter ->
        snd (discovery.ServerResourcesForGroupVersion dc (metav1.GroupVersion version))
          <> None ->
        snd (controllers.getGenericCRDFromAPIGroups ToLower dc veleroBackup) = None
        /\ controllers.getGenericCRDFromAPIGroups ToLower dc veleroBackup
           = controllers.getGenericCRDFromAPIGroups ToLower
               (with_groups dc
                  (before
                   ++ metav1.mkAPIGroup (metav1.APIGroup_Name group) (vbefore ++ vafter)
                   :: after))
               veleroBackup
        /\ (forall name,
              In name (fst (controllers.getGenericCRDFromAPIGroups ToLower dc veleroBackup))
              <-> exists kind,
                    offered ToLower dc name kind
                    /\ ~ In name (veleroapi.ExcludedResources (veleroapi.Spec veleroBackup))
                    /\ ~ In kind (veleroapi.ExcludedResources (veleroapi.Spec veleroBackup)))
        /\ (forall group' version' resourceList resource,
              In group' (metav1.Groups groupList) ->
              In version' (metav1.Versions group') ->
              discovery.ServerResourcesForGroupVersion dc (metav1.GroupVersion version')
              = (Some resourceList, None) ->
              metav1.APIGroup_Name group' <> EmptyString ->
              In resource (metav1.APIResources resourceList) ->
              let kind := ToLower (metav1.APIResource_Kind resource) in
              let name := kind +:+ "." +:+ metav1.APIGroup_Name group' in
              ~ In name (veleroapi.ExcludedResources (veleroapi.Spec veleroBackup)) ->
              ~ In kind (veleroapi.ExcludedResources (veleroapi.Spec veleroBackup)) ->
              In name (fst (controllers.getGenericCRDFromAPIGroups ToLower dc veleroBackup)))).
Proof.
  split_and!.
  - unfold controllers.getGenericCRDFromAPIGroups.
    destruct (discovery.ServerGroups dc) as [[gl|] [e|]]; simpl; split; congruence.
  - unfold controllers.getGenericCRDFromAPIGroups.
    intros e He. destruct (discovery.ServerGroups dc) as [gl [e'|]]; simpl in He;
      [injection He as -> | discriminate]. reflexivity.
  - unfold controllers.getGenericCRDFromAPIGroups. now intros ->.
  - unfold controllers.getGenericCRDFromAPIGroups. now intros ->.
  - intros gl before group after vbefore version vafter Hgl Hgroups Hversions Hfail.
    split_and!.
    + unfold controllers.getGenericCRDFromAPIGroups. now rewrite Hgl.
    + unfold controllers.getGenericCRDFromAPIGroups. rewrite Hgl.
      simpl. rewrite Hgroups. f_equal.
      destruct group as [name versions]. simpl in Hversions. subst versions.
      rewrite !fold_left_app. simpl fold_left.
      rewrite (visitGroup_skips_failed ToLower dc _ _ name vbefore version vafter Hfail).
      reflexivity.
    + intros name. apply getGeneric_In_offered.
    + intros group' version' rl resource Hg Hv Hrl Hne Hr kind name Hname Hkind.
      apply getGeneric_In_offered. exists kind. split_and!; [| exact Hname | exact Hkind].
      now exists gl, group', version', rl, resource.
Qed.

Lemma getGenericCRDFromAPIGroups_errors_witness :
  controllers.getGenericCRDFromAPIGroups gostrings.ToLowerASCII
    (discovery.mkDiscoveryInterface (None, Some "connection refused"%string) hubResources)
    hubBackup
  = ([], Some "failed to get server groups: connection refused"%string)
  /\ controllers.getGenericCRDFromAPIGroups gostrings.ToLowerASCII
       (discovery.mkDiscoveryInterface (None, None) hubResources) hubBackup
     = ([], None)
  /\ controllers.getGenericCRDFromAPIGroups gostrings.ToLowerASCII
       (with_groups hubCatalog []) hubBackup
     = ([], None)
  /\ snd (controllers.getGenericCRDFromAPIGroups gostrings.ToLowerASCII hubCatalog hubBackup)
     = None
  /\ controllers.getGenericCRDFromAPIGroups gostrings.ToLowerASCII hubCatalog hubBackup
     = controllers.getGenericCRDFromAPIGroups gostrings.ToLowerASCII
         (with_groups hubCatalog
            ([] ++ metav1.mkAPIGroup "apps.open-cluster-management.io"
                     ([gv "apps.open-cluster-management.io/v1"] ++ [])
                :: tl hubGroups))
         hubBackup
  /\ In "channel.apps.open-cluster-management.io"%string
       (fst (controllers.getGenericCRDFromAPIGroups gostrings.ToLowerASCII
               hubCatalog hubBackup))
  /\ In "managedcluster.cluster.open-cluster-management.io"%string
       (fst (controllers.getGenericCRDFromAPIGroups gostrings.ToLowerASCII
               hubCatalog hubBackup)).
Proof.
  assert (Hfailing :
            snd (discovery.ServerResourcesForGroupVersion hubCatalog
                   (metav1.GroupVersion (gv "apps.open-cluster-management.io/v1beta1")))
            <> None) by (simpl; discriminate).
  destruct (getGenericCRDFromAPIGroups_errors gostrings.ToLowerASCII hubCatalog hubBackup)
    as (_ & _ & _ & _ & Hskip).
  destruct (Hskip (metav1.mkAPIGroupList hubGroups) [] (hd (metav1.mkAPIGroup "" []) hubGroups)
              (tl hubGroups) [gv "apps.open-cluster-management.io/v1"]
              (gv "apps.open-cluster-management.io/v1beta1") []
              eq_refl eq_refl eq_refl Hfailing)
    as (Hnil & Hsame & _ & Hkept).
  split_and!.
  - destruct (getGenericCRDFromAPIGroups_errors gostrings.ToLowerASCII
                (discovery.mkDiscoveryInterface (None, Some "connection refused"%string)
                   hubResources) hubBackup) as (_ & Hfatal & _).
    apply Hfatal. reflexivity.
  - destruct (getGenericCRDFromAPIGroups_errors gostrings.ToLowerASCII
                (discovery.mkDiscoveryInterface (None, None) hubResources) hubBackup)
      as (_ & _ & Habsent & _).
    apply Habsent. reflexivity.
  - destruct (getGenericCRDFromAPIGroups_errors gostrings.ToLowerASCII
                (with_groups hubCatalog []) hubBackup) as (_ & _ & _ & Hempty & _).
    apply Hempty. reflexivity.
  - exact Hnil.
  - exact Hsame.
  - apply (Hkept (hd (metav1.mkAPIGroup "" []) hubGroups)
             (gv "apps.open-cluster-management.io/v1")
             (metav1.mkAPIResourceList
                [metav1.mkAPIResource "channels" "Channel";
                 metav1.mkAPIResource "subscriptions" "Subscription";
                 metav1.mkAPIResource "placementrules" "PlacementRule"])
             (metav1.mkAPIResource "channels" "Channel"));
      try reflexivity; simpl; auto; try discriminate;
      intros [H | [H | [H | [H | []]]]]; discriminate.
  - apply (Hkept (metav1.mkAPIGroup "cluster.open-cluster-management.io"
                    [gv "cluster.open-cluster-management.io/v1";
                     gv "cluster.open-cluster-management.io/v1beta1"])
             (gv "cluster.open-cluster-management.io/v1beta1")
             (metav1.mkAPIResourceList
                [metav1.mkAPIResource "managedclusters" "ManagedCluster";
                 metav1.mkAPIResource "managedclustersets" "ManagedClusterSet"])
             (metav1.mkAPIResource "managedclusters" "ManagedCluster"));
      try reflexivity; simpl; auto; try discriminate;
      intros [H | [H | [H | [H | []]]]]; discriminate.
Defined.

(** ** Hub identity *)

Section HubIdentityFacts.

Implicit Types (entries : list (string * unstructured.Value))
  (spec : gmap string unstructured.Value) (uid : string).

Lemma rangeSpec_no_key entries uid :
  "clusterID"%string ∉ entries.*1 -> controllers.rangeSpec entries uid = Done uid.
Proof.
  induction entries as [|[key value] rest IH]; simpl; [reflexivity |].
  intros Hnot. apply not_elem_of_cons in Hnot as [Hkey Hrest].
  destruct (String.eqb key "clusterID") eqn:E.
  - apply String.eqb_eq in E. congruence.
  - now apply IH.
Qed.

Lemma rangeSpec_key entries uid value :
  NoDup entries.*1 ->
  ("clusterID"%string, value) ∈ entries ->
  controllers.rangeSpec entries uid = controllers.assertString value.
Proof.
  induction entries as [|[key value0] rest IH]; simpl; intros Hnd Hin.
  - now apply elem_of_nil in Hin.
  - apply NoDup_cons in Hnd as [Hfresh Hnd].
    destruct (String.eqb key "clusterID") eqn:E.
    + apply String.eqb_eq in E. subst key.
      apply elem_of_cons in Hin as [Heq | Hin].
      * injection Heq as <-. destruct (controllers.assertString value); simpl;
          [now apply rangeSpec_no_key | reflexivity].
      * exfalso. apply Hfresh. apply list_elem_of_fmap. now exists ("clusterID"%string, value).
    + apply String.eqb_neq in E.
      apply elem_of_cons in Hin as [Heq | Hin]; [congruence | now apply IH].
Qed.

(** The loop over the entries of a map, taken in any order, is decided by
    the value the map holds under [clusterID]. *)
Lemma rangeSpec_lookup spec entries uid :
  entries ≡ₚ map_to_list spec ->
  controllers.rangeSpec entries uid
  = match spec !! "clusterID"%string with
    | Some value => controllers.assertString value
    | None => Done uid
    end.
Proof.
  intros Hperm.
  assert (Hnd : NoDup entries.*1).
  { rewrite Hperm. apply NoDup_fst_map_to_list. }
  destruct (spec !! "clusterID"%string) as [value|] eqn:Hlook.
  - apply rangeSpec_key; [exact Hnd |]. rewrite Hperm. now apply elem_of_map_to_list.
  - apply rangeSpec_no_key. intros Hin. apply list_elem_of_fmap in Hin as ([key value] & Hkey & Hin).
    simpl in Hkey. subst key. rewrite Hperm in Hin. apply elem_of_map_to_list in Hin. congruence.
Qed.

Lemma rangeSpec_any_order spec entries uid :
  entries ≡ₚ map_to_list spec ->
  controllers.rangeSpec entries uid = controllers.rangeSpec (map_to_list spec) uid.
Proof.
  intros Hperm. now rewrite (rangeSpec_lookup spec entries), (rangeSpec_lookup spec (map_to_list spec)).
Qed.

(** The function, once the mapping, the client and the listing succeeded
    and the first item has a payload. *)
Lemma getHubIdentification_first_item dyn mapper mapping dr items first rest object :
  restmapper.RESTMapping mapper clusterVersionKind [EmptyString] = (Some mapping, None) ->
  dynamic.Resource dyn (meta.Resource mapping) = Some dr ->
  dynamic.List dr = (Some items, None) ->
  unstructured.Items items = first :: rest ->
  unstructured.Object first = Some object ->
  controllers.getHubIdentification dyn mapper
  = match controllers.index_Object object "spec" with
    | unstructured.VNil => Done ("unknown"%string, None)
    | unstructured.VMap spec =>
        match spec !! "clusterID"%string with
        | Some value =>
            do uid <~ controllers.assertString value ;; Done (uid, None)
        | None => Done ("unknown"%string, None)
        end
    | _ => Panic "reflect: call of reflect.Value.MapRange on non-map Value"
    end.
Proof.
  intros Hmap Hres Hlist Hitems Hobj. unfold controllers.getHubIdentification.
  fold clusterVersionKind. rewrite Hmap, Hres, Hlist, Hitems, Hobj.
  destruct (controllers.index_Object object "spec") as [| | | | | |spec]; try reflexivity.
  cbn [controllers.mapRange controllers.is_nil negb exec_bind].
  rewrite (rangeSpec_lookup spec (map_to_list spec)) by reflexivity.
  now destruct (spec !! "clusterID"%string).
Qed.

End HubIdentityFacts.

(** C3, on the code: a [clusterID] bound to a value that is not a string
    makes the unchecked type assertion panic; the default identity is not
    returned. *)
Theorem getHubIdentification_clusterID_not_string
    (dyn : dynamic.Interface) (mapper : restmapper.DeferredDiscoveryRESTMapper)
    (mapping : meta.RESTMapping) (dr : dynamic.ResourceInterface)
    (items : unstructured.UnstructuredList)
    (first : unstructured.Unstructured) (rest : list unstructured.Unstructured)
    (object spec : gmap string unstructured.Value) (value : unstructured.Value) :
  restmapper.RESTMapping mapper clusterVersionKind [EmptyString] = (Some mapping, None) ->
  dynamic.Resource dyn (meta.Resource mapping) = Some dr ->
  dynamic.List dr = (Some items, None) ->
  unstructured.Items items = first :: rest ->
  unstructured.Object first = Some object ->
  object !! "spec"%string = Some (unstructured.VMap spec) ->
  spec !! "clusterID"%string = Some value ->
  (forall s, value <> unstructured.VString s) ->
  controllers.getHubIdentification dyn mapper
  = Panic "interface conversion: interface {} is not string".
Proof.
  intros Hmap Hres Hlist Hitems Hobj Hspec Hid Hvalue.
  rewrite (getHubIdentification_first_item _ _ _ _ _ _ _ _ Hmap Hres Hlist Hitems Hobj).
  unfold controllers.index_Object. rewrite Hspec, Hid.
  destruct value; try reflexivity. now destruct (Hvalue s).
Qed.

Lemma getHubIdentification_clusterID_not_string_witness :
  controllers.getHubIdentification
    (listing (Some (unstructured.mkUnstructuredList
                      [clusterVersion (specWithID (unstructured.VInt64 42))])))
    clusterVersionMapper
  = Panic "interface conversion: interface {} is not string".
Proof.
  apply (getHubIdentification_clusterID_not_string _ _ clusterVersionMapping
           (dynamic.mkResourceInterface
              (Some (unstructured.mkUnstructuredList
                       [clusterVersion (specWithID (unstructured.VInt64 42))]), None))
           (unstructured.mkUnstructuredList
              [clusterVersion (specWithID (unstructured.VInt64 42))])
           (clusterVersion (specWithID (unstructured.VInt64 42))) []
           (<["kind" := unstructured.VString "ClusterVersion"]>
              (<["spec" := specWithID (unstructured.VInt64 42)]> ∅))
           (<["channel" := unstructured.VString "stable-4.9"]>
              (<["clusterID" := unstructured.VInt64 42]> ∅))
           (unstructured.VInt64 42));
    try reflexivity.
  intros s. discriminate.
Defined.

(** The same holds for a [spec] that is not a map: [MapRange] panics. *)
Example getHubIdentification_spec_not_map :
  controllers.getHubIdentification
    (listing (Some (unstructured.mkUnstructuredList
                      [clusterVersion (unstructured.VString "stable")])))
    clusterVersionMapper
  = Panic "reflect: call of reflect.Value.MapRange on non-map Value".
Proof. reflexivity. Qed.

(** C4: once the kind is mapped and the listing call returns no error, the
    function returns ["unknown"] and no error when the listing is nil or
    empty, when the first item has no payload or no [spec], and when the
    [spec] map has no [clusterID]; it returns the string under
    [spec.clusterID] when there is one. *)
Theorem getHubIdentification_best_effort
    (dyn : dynamic.Interface) (mapper : restmapper.DeferredDiscoveryRESTMapper)
    (mapping : meta.RESTMapping) (dr : dynamic.ResourceInterface)
    (items : option unstructured.UnstructuredList) :
  restmapper.RESTMapping mapper clusterVersionKind [EmptyString] = (Some mapping, None) ->
  dynamic.Resource dyn (meta.Resource mapping) = Some dr ->
  dynamic.List dr = (items, None) ->
  (items = None \/ items = Some (unstructured.mkUnstructuredList []) ->
     controllers.getHubIdentification dyn mapper = Done ("unknown"%string, None))
  /\ (forall list first rest,
        items = Some list ->
        unstructured.Items list = first :: rest ->
        (unstructured.Object first = None ->
           controllers.getHubIdentification dyn mapper = Done ("unknown"%string, None))
        /\ (forall object,
              unstructured.Object first = Some object ->
              (object !! "spec"%string = None
               \/ object !! "spec"%string = Some unstructured.VNil ->
                 controllers.getHubIdentification dyn mapper = Done ("unknown"%string, None))
              /\ (forall spec,
                    object !! "spec"%string = Some (unstructured.VMap spec) ->
                    (spec !! "clusterID"%string = None ->
                       controllers.getHubIdentification dyn mapper
                       = Done ("unknown"%string, None))
                    /\ (forall id,
                          spec !! "clusterID"%string = Some (unstructured.VString id) ->
                          controllers.getHubIdentification dyn mapper = Done (id, None))))).
Proof.
  intros Hmap Hres Hlist. split.
  - unfold controllers.getHubIdentification. fold clusterVersionKind.
    rewrite Hmap, Hres, Hlist. now intros [-> | ->].
  - intros list first rest -> Hitems. split.
    + intros Hobj. unfold controllers.getHubIdentification. fold clusterVersionKind.
      now rewrite Hmap, Hres, Hlist, Hitems, Hobj.
    + intros object Hobj.
      rewrite (getHubIdentification_first_item _ _ _ _ _ _ _ _ Hmap Hres Hlist Hitems Hobj).
      unfold controllers.index_Object. split.
      * now intros [-> | ->].
      * intros spec ->. split; [now intros -> | now intros id ->].
Qed.

Lemma getHubIdentification_best_effort_witness :
  controllers.getHubIdentification (listing None) clusterVersionMapper
    = Done ("unknown"%string, None)
  /\ controllers.getHubIdentification
       (listing (Some (unstructured.mkUnstructuredList
                         [clusterVersion
                            (specWithID (unstructured.VString "hub-7f3a"))])))
       clusterVersionMapper
     = Done ("hub-7f3a"%string, None).
Proof.
  split.
  - destruct (getHubIdentification_best_effort (listing None) clusterVersionMapper
                clusterVersionMapping (dynamic.mkResourceInterface (None, None)) None
                eq_refl eq_refl eq_refl) as [Hnil _].
    apply Hnil. now left.
  - destruct (getHubIdentification_best_effort
                (listing (Some (unstructured.mkUnstructuredList
                                  [clusterVersion
                                     (specWithID (unstructured.VString "hub-7f3a"))])))
                clusterVersionMapper clusterVersionMapping
                (dynamic.mkResourceInterface
                   (Some (unstructured.mkUnstructuredList
                            [clusterVersion
                               (specWithID (unstructured.VString "hub-7f3a"))]), None))
                _ eq_refl eq_refl eq_refl) as [_ Hfirst].
    destruct (Hfirst _ _ [] eq_refl eq_refl) as [_ Hobject].
    destruct (Hobject _ eq_refl) as [_ Hspec].
    destruct (Hspec (<["channel" := unstructured.VString "stable-4.9"]>
                       (<["clusterID" := unstructured.VString "hub-7f3a"]> ∅)))
      as [_ Hid]; [reflexivity |].
    apply Hid. reflexivity.
Defined.

(** The remaining soft cases, evaluated. *)
Example getHubIdentification_empty_listing :
  controllers.getHubIdentification
    (listing (Some (unstructured.mkUnstructuredList []))) clusterVersionMapper
  = Done ("unknown"%string, None).
Proof. reflexivity. Qed.

Example getHubIdentification_no_clusterID :
  controllers.getHubIdentification
    (listing (Some (unstructured.mkUnstructuredList
                      [clusterVersion
                         (unstructured.VMap
                            (<["channel" := unstructured.VString "stable-4.9"]> ∅))])))
    clusterVersionMapper
  = Done ("unknown"%string, None).
Proof. reflexivity. Qed.

(** A listing error is returned with the default identity. *)
Example getHubIdentification_listing_error :
  controllers.getHubIdentification
    (dynamic.mkInterface
       (fun _ => Some (dynamic.mkResourceInterface (None, Some "forbidden"%string))))
    clusterVersionMapper
  = Done ("unknown"%string, Some "forbidden"%string).
Proof. reflexivity. Qed.

(** * Further properties of the helpers *)

(** ** Linear search *)

Section SearchFacts.

Implicit Types (slice : list string) (val item : string).

Lemma find_from_absent slice val i :
  ~ In val slice -> controllers.find_from slice val i = (-1, false).
Proof.
  revert i; induction slice as [|item rest IH]; intros i Hnot; simpl; [reflexivity |].
  destruct (String.eqb item val) eqn:E.
  - apply String.eqb_eq in E. exfalso. apply Hnot. now left.
  - apply IH. intros H. apply Hnot. now right.
Qed.

Lemma find_from_first slice val i :
  In val slice ->
  exists n : nat,
    controllers.find_from slice val i = (i + Z.of_nat n, true)
    /\ slice !! n = Some val
    /\ forall m, (m < n)%nat -> slice !! m <> Some val.
Proof.
  revert i; induction slice as [|item rest IH]; intros i Hin; [destruct Hin |].
  simpl. destruct (String.eqb item val) eqn:E.
  - apply String.eqb_eq in E. subst item. exists 0%nat.
    rewrite Z.add_0_r. split_and!; [reflexivity | reflexivity | intros m Hm; lia].
  - apply String.eqb_neq in E. destruct Hin as [-> | Hin]; [congruence |].
    destruct (IH (i + 1) Hin) as (n & Heq & Hlook & Hfirst).
    exists (S n). rewrite Heq. split_and!; [f_equal; lia | exact Hlook |].
    intros [|m] Hm; simpl; [congruence | apply Hfirst; lia].
Qed.

Lemma findSuffix_from_absent slice val i :
  (forall item, In item slice -> ~ ends_with val item) ->
  controllers.findSuffix_from slice val i = (-1, false).
Proof.
  revert i; induction slice as [|item rest IH]; intros i Hnot; simpl; [reflexivity |].
  destruct (gostrings.HasSuffix val item) eqn:E.
  - apply HasSuffix_spec in E. exfalso. apply (Hnot item); [now left | exact E].
  - apply IH. intros item' Hin. apply Hnot. now right.
Qed.

Lemma ends_with_refl val : ends_with val val.
Proof. now exists EmptyString. Qed.

End SearchFacts.

(** X1: [find] returns the index of the first element equal to the value,
    an index inside the slice, and [(-1, false)] exactly when the value
    is not in the slice. *)
Theorem find_first_index (slice : list string) (val : string) :
  (In val slice ->
     exists n : nat,
       controllers.find slice val = (Z.of_nat n, true)
       /\ (n < length slice)%nat
       /\ slice !! n = Some val
       /\ forall m, (m < n)%nat -> slice !! m <> Some val)
  /\ (~ In val slice -> controllers.find slice val = (-1, false))
  /\ (snd (controllers.find slice val) = false -> ~ In val slice).
Proof.
  unfold controllers.find. split_and!.
  - intros Hin. destruct (find_from_first slice val 0 Hin) as (n & Heq & Hlook & Hfirst).
    exists n. rewrite Heq. split_and!; [reflexivity | | exact Hlook | exact Hfirst].
    now apply lookup_lt_Some in Hlook.
  - apply find_from_absent.
  - intros Hfalse Hin. apply (find_from_found slice val 0) in Hin. congruence.
Qed.

Lemma find_first_index_witness :
  exists n : nat,
    controllers.find ["secret"; "pod"; "secret"]%string "secret" = (Z.of_nat n, true)
    /\ (n < 3)%nat
    /\ ["secret"; "pod"; "secret"]%string !! n = Some "secret"%string
    /\ forall m, (m < n)%nat -> ["secret"; "pod"; "secret"]%string !! m <> Some "secret"%string.
Proof.
  apply (find_first_index ["secret"; "pod"; "secret"]%string "secret"). simpl. auto.
Defined.

(** X2: [findSuffix] returns the index of the first element that is a
    suffix of the value, and [(-1, false)] exactly when no element is. *)
Theorem findSuffix_first_index (slice : list string) (val : string) :
  ((exists item, In item slice /\ ends_with val item) ->
     exists (n : nat) (item : string),
       controllers.findSuffix slice val = (Z.of_nat n, true)
       /\ slice !! n = Some item
       /\ ends_with val item
       /\ forall m item', (m < n)%nat -> slice !! m = Some item' -> ~ ends_with val item')
  /\ ((forall item, In item slice -> ~ ends_with val item) ->
        controllers.findSuffix slice val = (-1, false)).
Proof.
  unfold controllers.findSuffix. split.
  - intros Hex. destruct (findSuffix_from_spec slice val 0 Hex) as (n & item & Heq & H).
    exists n, item. now rewrite Heq.
  - apply findSuffix_from_absent.
Qed.

Lemma findSuffix_first_index_witness :
  (exists (n : nat) (item : string),
     controllers.findSuffix ["io"; "management.io"]%string "cluster.open-cluster-management.io"
     = (Z.of_nat n, true)
     /\ ["io"; "management.io"]%string !! n = Some item
     /\ ends_with "cluster.open-cluster-management.io" item
     /\ forall m item', (m < n)%nat ->
          ["io"; "management.io"]%string !! m = Some item' ->
          ~ ends_with "cluster.open-cluster-management.io" item')
  /\ controllers.findSuffix ["velero.io"; "v1"]%string "pods" = (-1, false).
Proof.
  split.
  - apply (findSuffix_first_index ["io"; "management.io"]%string
             "cluster.open-cluster-management.io").
    exists "io"%string. split; [simpl; auto |].
    now exists "cluster.open-cluster-management."%string.
  - apply (findSuffix_first_index ["velero.io"; "v1"]%string "pods").
    intros item [<- | [<- | []]] Hends; apply HasSuffix_spec in Hends; discriminate.
Defined.

(** X3: a value that [find] locates is located by [findSuffix] as well, at
    an index that is not later: equality is a suffix match. *)
Theorem find_then_findSuffix (slice : list string) (val : string) :
  In val slice ->
  exists n m : nat,
    controllers.find slice val = (Z.of_nat n, true)
    /\ controllers.findSuffix slice val = (Z.of_nat m, true)
    /\ (m <= n)%nat.
Proof.
  intros Hin. unfold controllers.find, controllers.findSuffix.
  destruct (find_from_first slice val 0 Hin) as (n & Heq & Hlook & _).
  destruct (findSuffix_from_spec slice val 0) as (m & item & Heqs & _ & _ & Hfirst).
  { exists val. split; [exact Hin | apply ends_with_refl]. }
  exists n, m. rewrite Heq, Heqs. split_and!; [reflexivity | reflexivity |].
  destruct (Nat.le_gt_cases m n) as [Hle | Hgt]; [exact Hle |].
  exfalso. apply (Hfirst n val Hgt Hlook), ends_with_refl.
Qed.

Lemma find_then_findSuffix_witness :
  exists n m : nat,
    controllers.find ["od"; "pod"]%string "pod" = (Z.of_nat n, true)
    /\ controllers.findSuffix ["od"; "pod"]%string "pod" = (Z.of_nat m, true)
    /\ (m <= n)%nat.
Proof.
  apply (find_then_findSuffix ["od"; "pod"]%string "pod"). simpl. auto.
Defined.

(** ** Unique append *)

(** X4: [appendUnique] keeps the slice as a prefix and adds at most the
    value: the result holds the value, its elements are those of the slice
    and the value, and a duplicate-free slice stays duplicate-free. *)
Theorem appendUnique_extends (slice : list string) (value : string) :
  In value (controllers.appendUnique slice value)
  /\ (forall x, In x (controllers.appendUnique slice value) <-> In x slice \/ x = value)
  /\ (exists tail,
        controllers.appendUnique slice value = slice ++ tail
        /\ (In value slice -> tail = [])
        /\ (~ In value slice -> tail = [value]))
  /\ (NoDup slice -> NoDup (controllers.appendUnique slice value)).
Proof.
  split_and!.
  - apply appendUnique_In. now right.
  - intros x. apply appendUnique_In.
  - rewrite appendUnique_eq. destruct (controllers.findValue slice value) eqn:E.
    + apply findValue_spec in E. exists []. rewrite app_nil_r. split_and!; tauto.
    + apply findValue_false in E. exists [value]. split_and!; tauto.
  - apply appendUnique_NoDup.
Qed.

Lemma appendUnique_extends_witness :
  NoDup (controllers.appendUnique ["a"; "b"]%string "c")
  /\ exists tail,
       controllers.appendUnique ["a"; "b"]%string "b" = ["a"; "b"]%string ++ tail
       /\ (In "b"%string ["a"; "b"]%string -> tail = [])
       /\ (~ In "b"%string ["a"; "b"]%string -> tail = ["b"%string]).
Proof.
  split.
  - apply (appendUnique_extends ["a"; "b"]%string "c").
    apply (bool_decide_unpack _). vm_compute. exact I.
  - apply (appendUnique_extends ["a"; "b"]%string "b").
Defined.

(** X5: two unique appends commute up to the order of the elements. *)
Theorem appendUnique_commutes (slice : list string) (a b : string) :
  controllers.appendUnique (controllers.appendUnique slice a) b
  ≡ₚ controllers.appendUnique (controllers.appendUnique slice b) a.
Proof.
  rewrite !appendUnique_eq.
  destruct (controllers.findValue slice a) eqn:Ea;
    destruct (controllers.findValue slice b) eqn:Eb; rewrite ?Ea, ?Eb.
  - reflexivity.
  - replace (controllers.findValue (slice ++ [b]) a) with true; [reflexivity |].
    symmetry. apply findValue_spec, in_app_iff. left. now apply findValue_spec.
  - replace (controllers.findValue (slice ++ [a]) b) with true; [reflexivity |].
    symmetry. apply findValue_spec, in_app_iff. left. now apply findValue_spec.
  - apply findValue_false in Ea, Eb.
    destruct (String.eqb a b) eqn:E.
    + apply String.eqb_eq in E. subst b. reflexivity.
    + apply String.eqb_neq in E.
      replace (controllers.findValue (slice ++ [a]) b) with false.
      2:{ symmetry. apply findValue_false. rewrite in_app_iff. simpl. intuition congruence. }
      replace (controllers.findValue (slice ++ [b]) a) with false.
      2:{ symmetry. apply findValue_false. rewrite in_app_iff. simpl. intuition congruence. }
      rewrite <- !app_assoc. simpl. apply Permutation_app_head, perm_swap.
Qed.

Lemma fold_appendUnique_In (values acc : list string) (x : string) :
  In x (fold_left controllers.appendUnique values acc) <-> In x acc \/ In x values.
Proof.
  revert acc; induction values as [|v rest IH]; intros acc; simpl; [tauto |].
  rewrite IH, appendUnique_In. intuition.
Qed.

Lemma fold_appendUnique_NoDup_id (values acc : list string) :
  NoDup (acc ++ values) -> fold_left controllers.appendUnique values acc = acc ++ values.
Proof.
  revert acc; induction values as [|v rest IH]; intros acc Hnd; simpl.
  - now rewrite app_nil_r.
  - assert (Hv : ~ In v acc).
    { apply NoDup_app in Hnd as (_ & Hdisj & _). intros Hin%list_elem_of_In.
      apply (Hdisj v Hin). set_solver. }
    rewrite appendUnique_eq. apply findValue_false in Hv. rewrite Hv.
    rewrite IH; rewrite <- app_assoc; [reflexivity | exact Hnd].
Qed.

(** X6: appending the elements of a list one by one to the empty slice
    removes the duplicates and nothing else: the result is duplicate-free,
    has the elements of the list, and is the list itself when that has no
    duplicates. *)
Theorem fold_appendUnique_dedup (values : list string) :
  NoDup (fold_left controllers.appendUnique values [])
  /\ (forall x, In x (fold_left controllers.appendUnique values []) <-> In x values)
  /\ (NoDup values -> fold_left controllers.appendUnique values [] = values).
Proof.
  split_and!.
  - apply fold_left_NoDup; [| constructor]. intros. now apply appendUnique_NoDup.
  - intros x. rewrite fold_appendUnique_In. simpl. tauto.
  - intros Hnd. now rewrite fold_appendUnique_NoDup_id.
Qed.

Lemma fold_appendUnique_dedup_witness :
  fold_left controllers.appendUnique ["ns1"; "ns2"; "ns3"]%string []
  = ["ns1"; "ns2"; "ns3"]%string.
Proof.
  apply (fold_appendUnique_dedup ["ns1"; "ns2"; "ns3"]%string).
  apply (bool_decide_unpack _). vm_compute. exact I.
Defined.

(** X7: [min] is the greatest lower bound of its arguments, one of them,
    and does not depend on their order. *)
Theorem min_greatest_lower_bound (x y : Z) :
  controllers.min x y <= x
  /\ controllers.min x y <= y
  /\ (controllers.min x y = x \/ controllers.min x y = y)
  /\ (forall z, z <= x -> z <= y -> z <= controllers.min x y)
  /\ controllers.min x y = controllers.min y x.
Proof.
  unfold controllers.min.
  destruct (x <? y) eqn:Exy; destruct (y <? x) eqn:Eyx;
    rewrite ?Z.ltb_lt, ?Z.ltb_ge in *; split_and!; try lia; auto.
Qed.

Lemma min_greatest_lower_bound_witness : 2 <= controllers.min 3 7.
Proof.
  destruct (min_greatest_lower_bound 3 7) as (_ & _ & _ & Hglb & _).
  apply Hglb; lia.
Defined.

(** ** Restore names, timestamps and the resource name codec *)

Section NamingFacts.

Implicit Types s t pre post : string.

Lemma str_take_app_le n pre post :
  (n <= String.length pre)%nat -> str_take n (pre +:+ post) = str_take n pre.
Proof.
  revert pre; induction n as [|n IH]; intros [|c pre] Hle; simpl in *;
    try reflexivity; try lia.
  rewrite IH by lia. reflexivity.
Qed.

Lemma append_inj_l s t1 t2 : s +:+ t1 = s +:+ t2 -> t1 = t2.
Proof.
  induction s as [|c s IH]; simpl; [trivial |]. intros H. injection H as H. auto.
Qed.

(** A string that holds the byte splits at its first occurrence. *)
Lemma str_mem_split_first c s :
  str_mem c s = true ->
  exists pre post, s = pre +:+ String c post /\ str_mem c pre = false.
Proof.
  induction s as [|d s IH]; simpl; [discriminate |].
  destruct (Ascii.eqb c d) eqn:E; simpl.
  - apply Ascii.eqb_eq in E. subst d. intros _. now exists EmptyString, s.
  - intros Hs. destruct (IH Hs) as (pre & post & -> & Hpre).
    exists (String d pre), post. simpl. now rewrite E.
Qed.

Lemma getResourceDetails_split kind group :
  str_mem "." kind = false ->
  controllers.getResourceDetails (kind +:+ String "." group) = Done (kind, group).
Proof.
  intros Hkind. unfold controllers.getResourceDetails, gostrings.Index.
  rewrite Index_from_first by assumption.
  pose proof (len_nonneg kind).
  replace (0 + len kind >? -1) with true by (symmetry; apply Z.gtb_lt; lia).
  rewrite Z.add_0_l, slice_to_app. simpl exec_bind.
  replace (kind +:+ String "." group) with ((kind +:+ ".") +:+ group)
    by (rewrite append_assoc; reflexivity).
  replace (len kind + 1) with (len (kind +:+ "."))
    by (rewrite len_append; reflexivity).
  now rewrite slice_from_app.
Qed.

Lemma getBackupTimestamp_suffix
    (time_Parse : string -> string -> gotime.Time * option error) name segment :
  str_mem "-" segment = false ->
  controllers.getBackupTimestamp time_Parse (name +:+ String "-" segment)
  = Done (time_Parse "20060102150405" segment).
Proof.
  intros Hseg. unfold controllers.getBackupTimestamp, gostrings.LastIndex.
  rewrite LastIndex_from_last by (lia || assumption).
  pose proof (len_nonneg name).
  replace (0 + len name =? -1) with false by (symmetry; apply Z.eqb_neq; lia).
  simpl negb. cbv iota. rewrite Z.add_0_l, slice_from_app. simpl exec_bind.
  now rewrite Trim_segment.
Qed.

(** A name that ends with a dot and has no other dot is not a name with
    something after an earlier dot. *)
Lemma trailing_dot_only kind lowered group :
  str_mem "." kind = false ->
  kind +:+ "." = lowered +:+ String "." group ->
  group = EmptyString.
Proof.
  revert lowered; induction kind as [|k kind IH]; intros [|l lowered] Hkind Heq;
    simpl in *.
  - now injection Heq as <-.
  - injection Heq as <- Heq. now destruct lowered.
  - injection Heq as -> Heq. vm_compute in Hkind. discriminate.
  - injection Heq as <- Heq. apply orb_false_elim in Hkind as [_ Hkind]. eauto.
Qed.

End NamingFacts.

(** X8: when the cluster restore name alone has 252 bytes or more, the
    restore name is its first 252 bytes, whatever the backup name: distinct
    backups then get the same restore name. *)
Theorem getValidKsRestoreName_ignores_backup (clusterRestoreName backupName : string) :
  252 <= len clusterRestoreName ->
  controllers.getValidKsRestoreName clusterRestoreName backupName
  = Done (str_take 252 clusterRestoreName).
Proof.
  intros Hlen. unfold controllers.getValidKsRestoreName.
  set (fullName := clusterRestoreName +:+ "-" +:+ backupName).
  assert (Hfull : 252 < len fullName).
  { unfold fullName. rewrite !len_append. pose proof (len_nonneg backupName).
    unfold len at 2. simpl. lia. }
  replace (len fullName >? 252) with true by (symmetry; apply Z.gtb_lt; lia).
  rewrite slice_to_prefix by lia. f_equal.
  unfold fullName. apply str_take_app_le. unfold len in Hlen. lia.
Qed.

Lemma getValidKsRestoreName_ignores_backup_witness :
  controllers.getValidKsRestoreName (longName +:+ longName) "backup-20230101120000"
  = controllers.getValidKsRestoreName (longName +:+ longName) "backup-20240101120000".
Proof.
  rewrite (getValidKsRestoreName_ignores_backup (longName +:+ longName)
             "backup-20230101120000") by (vm_compute; discriminate).
  rewrite (getValidKsRestoreName_ignores_backup (longName +:+ longName)
             "backup-20240101120000") by (vm_compute; discriminate).
  reflexivity.
Defined.

(** X9: for one cluster restore name, backup names whose restore names
    are not truncated get distinct restore names. *)
Theorem getValidKsRestoreName_injective
    (clusterRestoreName backupName1 backupName2 : string) :
  len (clusterRestoreName +:+ "-" +:+ backupName1) <= 252 ->
  len (clusterRestoreName +:+ "-" +:+ backupName2) <= 252 ->
  controllers.getValidKsRestoreName clusterRestoreName backupName1
  = controllers.getValidKsRestoreName clusterRestoreName backupName2 ->
  backupName1 = backupName2.
Proof.
  intros H1 H2. unfold controllers.getValidKsRestoreName.
  replace (len (clusterRestoreName +:+ "-" +:+ backupName1) >? 252) with false
    by (symmetry; rewrite Z.gtb_ltb; apply Z.ltb_ge; lia).
  replace (len (clusterRestoreName +:+ "-" +:+ backupName2) >? 252) with false
    by (symmetry; rewrite Z.gtb_ltb; apply Z.ltb_ge; lia).
  intros Heq. injection Heq as Heq.
  apply append_inj_l in Heq. now apply (append_inj_l "-") in Heq.
Qed.

Lemma getValidKsRestoreName_injective_witness :
  "backup1"%string = "backup1"%string.
Proof.
  apply (getValidKsRestoreName_injective "cluster1" "backup1" "backup1");
    [vm_compute; discriminate | vm_compute; discriminate | reflexivity].
Defined.

(** X10: a backup named as Velero names it, a schedule name, a dash and a
    dash-free timestamp, gives what [time.Parse] gives for the timestamp,
    whatever dashes the schedule name holds; when the timestamp parses to
    [t], the function returns [t] and no error. *)
Theorem getBackupTimestamp_velero_name
    (time_Parse : string -> string -> gotime.Time * option error)
    (scheduleName timestamp : string) (t : gotime.Time) :
  str_mem "-" timestamp = false ->
  time_Parse "20060102150405" timestamp = (t, None) ->
  controllers.getBackupTimestamp time_Parse (scheduleName +:+ "-" +:+ timestamp)
  = Done (t, None).
Proof.
  intros Hdash Hparse.
  change (scheduleName +:+ "-" +:+ timestamp) with (scheduleName +:+ String "-" timestamp).
  now rewrite getBackupTimestamp_suffix, Hparse.
Qed.

Lemma getBackupTimestamp_velero_name_witness :
  controllers.getBackupTimestamp gotime.Parse
    ("acm-managed-clusters-schedule" +:+ "-" +:+ "20211231235959")
  = Done (gotime.mkTime 2021 12 31 23 59 59 0, None).
Proof.
  apply (getBackupTimestamp_velero_name gotime.Parse "acm-managed-clusters-schedule"
           "20211231235959"); reflexivity.
Defined.

(** X11: an untruncated restore name carries the timestamp of its backup
    name: [getBackupTimestamp] on the restore name gives what it gives on
    the backup name when that holds a dash, and the parse of the whole
    backup name otherwise. *)
Theorem getBackupTimestamp_of_restore_name
    (time_Parse : string -> string -> gotime.Time * option error)
    (clusterRestoreName backupName : string) :
  len (clusterRestoreName +:+ "-" +:+ backupName) <= 252 ->
  exists restoreName,
    controllers.getValidKsRestoreName clusterRestoreName backupName = Done restoreName
    /\ controllers.getBackupTimestamp time_Parse restoreName
       = if str_mem "-" backupName
         then controllers.getBackupTimestamp time_Parse backupName
         else Done (time_Parse "20060102150405" backupName).
Proof.
  intros Hlen. exists (clusterRestoreName +:+ "-" +:+ backupName). split.
  - unfold controllers.getValidKsRestoreName.
    now replace (len (clusterRestoreName +:+ "-" +:+ backupName) >? 252) with false
      by (symmetry; rewrite Z.gtb_ltb; apply Z.ltb_ge; lia).
  - destruct (str_mem "-" backupName) eqn:Hmem.
    + destruct (str_mem_split_last _ _ Hmem) as (pre & segment & -> & Hseg).
      rewrite getBackupTimestamp_suffix by assumption.
      replace (clusterRestoreName +:+ "-" +:+ pre +:+ String "-" segment)
        with ((clusterRestoreName +:+ "-" +:+ pre) +:+ String "-" segment)
        by (rewrite !append_assoc; reflexivity).
      now apply getBackupTimestamp_suffix.
    + change (clusterRestoreName +:+ "-" +:+ backupName)
        with (clusterRestoreName +:+ String "-" backupName).
      now apply getBackupTimestamp_suffix.
Qed.

Lemma getBackupTimestamp_of_restore_name_witness :
  exists restoreName,
    controllers.getValidKsRestoreName "restore-acm" "acm-resources-schedule-20230101120000"
    = Done restoreName
    /\ controllers.getBackupTimestamp gotime.Parse restoreName
       = if str_mem "-" "acm-resources-schedule-20230101120000"
         then controllers.getBackupTimestamp gotime.Parse
                "acm-resources-schedule-20230101120000"
         else Done (gotime.Parse "20060102150405" "acm-resources-schedule-20230101120000").
Proof.
  apply (getBackupTimestamp_of_restore_name gotime.Parse "restore-acm"
           "acm-resources-schedule-20230101120000").
  vm_compute. discriminate.
Defined.

(** X12: [getResourceDetails] never panics; the kind it returns holds no
    dot; for a name with a dot, kind, dot and group rebuild the name; for a
    name without one, the kind is the name and the group is empty. *)
Theorem getResourceDetails_rebuilds (resourceName : string) :
  exists kind group,
    controllers.getResourceDetails resourceName = Done (kind, group)
    /\ str_mem "." kind = false
    /\ (str_mem "." resourceName = true -> resourceName = kind +:+ "." +:+ group)
    /\ (str_mem "." resourceName = false -> kind = resourceName /\ group = EmptyString).
Proof.
  destruct (str_mem "." resourceName) eqn:Hmem.
  - destruct (str_mem_split_first _ _ Hmem) as (kind & group & -> & Hkind).
    exists kind, group. rewrite getResourceDetails_split by assumption.
    split_and!; [reflexivity | exact Hkind | reflexivity | discriminate].
  - exists resourceName, EmptyString.
    unfold controllers.getResourceDetails, gostrings.Index.
    rewrite Index_from_absent by assumption.
    split_and!; [reflexivity | exact Hmem | discriminate | auto].
Qed.

Lemma getResourceDetails_rebuilds_witness :
  exists kind group,
    controllers.getResourceDetails "clusterversion.config.openshift.io" = Done (kind, group)
    /\ str_mem "." kind = false
    /\ "clusterversion.config.openshift.io"%string = kind +:+ "." +:+ group.
Proof.
  destruct (getResourceDetails_rebuilds "clusterversion.config.openshift.io")
    as (kind & group & Heq & Hkind & Hdot & _).
  exists kind, group. split_and!; [exact Heq | exact Hkind | apply Hdot; reflexivity].
Defined.

(** ** Generic resource discovery, continued *)

Section DiscoveryMoreFacts.

Variable ToLower : string -> string.

Lemma getGeneric_In dc veleroBackup name :
  In name (fst (controllers.getGenericCRDFromAPIGroups ToLower dc veleroBackup))
  <-> exists groupList group,
        discovery.ServerGroups dc = (Some groupList, None)
        /\ In group (metav1.Groups groupList)
        /\ group_yields ToLower dc
             (veleroapi.ExcludedResources (veleroapi.Spec veleroBackup)) group name.
Proof.
  unfold controllers.getGenericCRDFromAPIGroups.
  set (excluded := veleroapi.ExcludedResources (veleroapi.Spec veleroBackup)).
  destruct (discovery.ServerGroups dc) as [[gl|] [e|]]; simpl fst;
    try (split; [intros [] | intros (? & ? & ? & _); discriminate]).
  rewrite (fold_left_In _ (group_yields ToLower dc excluded)
             (fun acc a x => visitGroup_In ToLower dc excluded acc a x)).
  split.
  - intros [[] | (group & Hg & Hy)]. now exists gl, group.
  - intros (gl' & group & Heq & Hg & Hy). injection Heq as <-. right. now exists group.
Qed.

Lemma fold_left_ext {A B : Type} (f g : A -> B -> A) :
  (forall acc b, f acc b = g acc b) ->
  forall l acc, fold_left f l acc = fold_left g l acc.
Proof.
  intros Hfg l. induction l as [|b l IH]; intros acc; simpl; [reflexivity |].
  now rewrite Hfg, IH.
Qed.

Lemma findValue_same_elements (excluded excluded' : list string) x :
  (forall y, In y excluded <-> In y excluded') ->
  controllers.findValue excluded x = controllers.findValue excluded' x.
Proof.
  intros Hsame. apply eq_true_iff_eq. rewrite !findValue_spec. apply Hsame.
Qed.

(** A loop body that finds all it would add already present adds nothing. *)
Lemma visitResource_absorbed excluded group acc resource :
  (forall x, yields ToLower excluded group resource x -> In x acc) ->
  controllers.visitResource ToLower excluded group acc resource = acc.
Proof.
  intros Hin. unfold controllers.visitResource.
  set (kind := ToLower (metav1.APIResource_Kind resource)).
  set (name := kind +:+ "." +:+ metav1.APIGroup_Name group).
  destruct (controllers.findValue excluded name) eqn:En; [reflexivity |].
  destruct (controllers.findValue excluded kind) eqn:Ek; [reflexivity |].
  cbn [negb andb]. rewrite appendUnique_eq.
  replace (controllers.findValue acc name) with true; [reflexivity |].
  symmetry. apply findValue_spec, Hin.
  apply findValue_false in En, Ek. now split_and!.
Qed.

Lemma visitVersion_absorbed dc excluded group acc version :
  (forall x, version_yields ToLower dc excluded group version x -> In x acc) ->
  controllers.visitVersion ToLower dc excluded group acc version = acc.
Proof.
  intros Hin. unfold controllers.visitVersion.
  destruct (discovery.ServerResourcesForGroupVersion dc (metav1.GroupVersion version))
    as [[rl|] [e|]] eqn:Hfetch; try reflexivity.
  destruct (String.eqb (metav1.APIGroup_Name group) "") eqn:Hname; [reflexivity |].
  apply String.eqb_neq in Hname.
  assert (Hall : forall r, In r (metav1.APIResources rl) ->
                   forall x, yields ToLower excluded group r x -> In x acc).
  { intros r Hr x Hy. apply Hin. now exists rl, r. }
  clear Hin Hfetch. induction (metav1.APIResources rl) as [|r rs IH]; simpl; [reflexivity |].
  rewrite visitResource_absorbed by (apply Hall; now left).
  apply IH. intros r' Hr'. apply Hall. now right.
Qed.

Lemma visitGroup_repeated dc excluded acc name vbefore version vbetween version' vafter :
  discovery.ServerResourcesForGroupVersion dc (metav1.GroupVersion version')
  = discovery.ServerResourcesForGroupVersion dc (metav1.GroupVersion version) ->
  controllers.visitGroup ToLower dc excluded acc
    (metav1.mkAPIGroup name (vbefore ++ version :: vbetween ++ version' :: vafter))
  = controllers.visitGroup ToLower dc excluded acc
      (metav1.mkAPIGroup name (vbefore ++ version :: vbetween ++ vafter)).
Proof.
  intros Hsame. unfold controllers.visitGroup. cbn [metav1.Versions].
  set (g0 := metav1.mkAPIGroup name []).
  change (fold_left (controllers.visitVersion ToLower dc excluded g0)
            (vbefore ++ version :: vbetween ++ version' :: vafter) acc
          = fold_left (controllers.visitVersion ToLower dc excluded g0)
              (vbefore ++ version :: vbetween ++ vafter) acc).
  rewrite !fold_left_app. cbn [fold_left]. rewrite !fold_left_app. cbn [fold_left].
  f_equal. apply visitVersion_absorbed.
  intros x (rl & r & Hfetch & Hne & Hr & Hy).
  apply (fold_left_In _ (version_yields ToLower dc excluded g0)
           (fun acc a y => visitVersion_In ToLower dc excluded g0 acc a y)).
  left. apply visitVersion_In. right.
  exists rl, r. rewrite <- Hsame. now split_and!.
Qed.

End DiscoveryMoreFacts.

(** X13: every name the discovery returns holds a dot, and
    [getResourceDetails] splits it into a dot-free kind and a non-empty
    group that rebuild it. *)
Theorem getGenericCRDFromAPIGroups_names_decode
    (ToLower : string -> string) (dc : discovery.DiscoveryInterface)
    (veleroBackup : veleroapi.Backup) (name : string) :
  In name (fst (controllers.getGenericCRDFromAPIGroups ToLower dc veleroBackup)) ->
  exists kind group,
    controllers.getResourceDetails name = Done (kind, group)
    /\ name = kind +:+ "." +:+ group
    /\ str_mem "." kind = false
    /\ group <> EmptyString.
Proof.
  intros Hin. apply getGeneric_In in Hin
    as (gl & g & _ & _ & version & _ & rl & r & _ & Hname & _ & -> & _ & _).
  set (lowered := ToLower (metav1.APIResource_Kind r)).
  assert (Hmem : str_mem "." (lowered +:+ "." +:+ metav1.APIGroup_Name g) = true).
  { rewrite str_mem_append. simpl. now rewrite orb_true_r. }
  destruct (str_mem_split_first _ _ Hmem) as (kind & group & Heq & Hkind).
  exists kind, group. rewrite Heq, getResourceDetails_split by assumption.
  split_and!; [reflexivity | reflexivity | exact Hkind |].
  intros ->. apply Hname. symmetry in Heq.
  now apply (trailing_dot_only kind lowered).
Qed.

Lemma getGenericCRDFromAPIGroups_names_decode_witness :
  exists kind group,
    controllers.getResourceDetails "channel.apps.open-cluster-management.io"
    = Done (kind, group)
    /\ "channel.apps.open-cluster-management.io"%string = kind +:+ "." +:+ group
    /\ str_mem "." kind = false
    /\ group <> EmptyString.
Proof.
  apply (getGenericCRDFromAPIGroups_names_decode gostrings.ToLowerASCII hubCatalog hubBackup).
  vm_compute. auto.
Defined.

(** X14: the discovery reads the exclusion list as a set: two lists with
    the same elements, in any order and with any repetition, give the same
    result. *)
Theorem getGenericCRDFromAPIGroups_exclusions_as_set
    (ToLower : string -> string) (dc : discovery.DiscoveryInterface)
    (excluded excluded' : list string) :
  (forall x, In x excluded <-> In x excluded') ->
  controllers.getGenericCRDFromAPIGroups ToLower dc
    (veleroapi.mkBackup (veleroapi.mkBackupSpec excluded))
  = controllers.getGenericCRDFromAPIGroups ToLower dc
      (veleroapi.mkBackup (veleroapi.mkBackupSpec excluded')).
Proof.
  intros Hsame. unfold controllers.getGenericCRDFromAPIGroups. simpl.
  destruct (discovery.ServerGroups dc) as [[gl|] [e|]]; try reflexivity.
  f_equal. apply fold_left_ext. intros acc group.
  unfold controllers.visitGroup. apply fold_left_ext. intros acc' version.
  unfold controllers.visitVersion.
  destruct (discovery.ServerResourcesForGroupVersion dc (metav1.GroupVersion version))
    as [[rl|] [e|]]; try reflexivity.
  destruct (String.eqb (metav1.APIGroup_Name group) ""); [reflexivity |].
  apply fold_left_ext. intros acc'' resource.
  unfold controllers.visitResource.
  now rewrite !(findValue_same_elements excluded excluded' _ Hsame).
Qed.

Lemma getGenericCRDFromAPIGroups_exclusions_as_set_witness :
  controllers.getGenericCRDFromAPIGroups gostrings.ToLowerASCII hubCatalog
    (veleroapi.mkBackup (veleroapi.mkBackupSpec ["channel"; "placementrule"]%string))
  = controllers.getGenericCRDFromAPIGroups gostrings.ToLowerASCII hubCatalog
      (veleroapi.mkBackup
         (veleroapi.mkBackupSpec ["placementrule"; "channel"; "placementrule"]%string)).
Proof.
  apply (getGenericCRDFromAPIGroups_exclusions_as_set gostrings.ToLowerASCII hubCatalog).
  intros x. simpl. tauto.
Defined.

(** X15: more exclusions never add a name: with a larger exclusion list,
    every name of the result is a name of the result for the smaller
    list. *)
Theorem getGenericCRDFromAPIGroups_exclusions_shrink
    (ToLower : string -> string) (dc : discovery.DiscoveryInterface)
    (excluded excluded' : list string) (name : string) :
  (forall x, In x excluded -> In x excluded') ->
  In name (fst (controllers.getGenericCRDFromAPIGroups ToLower dc
                  (veleroapi.mkBackup (veleroapi.mkBackupSpec excluded')))) ->
  In name (fst (controllers.getGenericCRDFromAPIGroups ToLower dc
                  (veleroapi.mkBackup (veleroapi.mkBackupSpec excluded)))).
Proof.
  intros Hsub. rewrite !getGeneric_In. simpl.
  intros (gl & group & Hgl & Hg & version & Hv & rl & r & Hrl & Hne & Hr & Hn & Hx & Hk).
  exists gl, group. split_and!; [exact Hgl | exact Hg |].
  exists version. split; [exact Hv |]. exists rl, r.
  split_and!; [exact Hrl | exact Hne | exact Hr |].
  split_and!; [exact Hn | intros H; apply Hx, Hsub, H | intros H; apply Hk, Hsub, H].
Qed.

Lemma getGenericCRDFromAPIGroups_exclusions_shrink_witness :
  In "channel.apps.open-cluster-management.io"%string
    (fst (controllers.getGenericCRDFromAPIGroups gostrings.ToLowerASCII hubCatalog
            (veleroapi.mkBackup (veleroapi.mkBackupSpec ["managedcluster"]%string)))).
Proof.
  apply (getGenericCRDFromAPIGroups_exclusions_shrink gostrings.ToLowerASCII hubCatalog
           ["managedcluster"]%string ["managedcluster"; "placementrule"]%string).
  - intros x Hx. simpl in *. tauto.
  - vm_compute. auto.
Defined.

(** X16: a version of a group that serves what an earlier version of the
    same group serves adds nothing: the result is, element for element,
    the result of the catalog without that later version. *)
Theorem getGenericCRDFromAPIGroups_repeated_version
    (ToLower : string -> string) (dc : discovery.DiscoveryInterface)
    (veleroBackup : veleroapi.Backup)
    (groupList : metav1.APIGroupList) (before after : list metav1.APIGroup)
    (group : metav1.APIGroup)
    (vbefore vbetween vafter : list metav1.GroupVersionForDiscovery)
    (version version' : metav1.GroupVersionForDiscovery) :
  discovery.ServerGroups dc = (Some groupList, None) ->
  metav1.Groups groupList = before ++ group :: after ->
  metav1.Versions group = vbefore ++ version :: vbetween ++ version' :: vafter ->
  discovery.ServerResourcesForGroupVersion dc (metav1.GroupVersion version')
  = discovery.ServerResourcesForGroupVersion dc (metav1.GroupVersion version) ->
  controllers.getGenericCRDFromAPIGroups ToLower dc veleroBackup
  = controllers.getGenericCRDFromAPIGroups ToLower
      (with_groups dc
         (before
          ++ metav1.mkAPIGroup (metav1.APIGroup_Name group)
               (vbefore ++ version :: vbetween ++ vafter)
          :: after))
      veleroBackup.
Proof.
  intros Hgl Hgroups Hversions Hsame.
  unfold controllers.getGenericCRDFromAPIGroups. rewrite Hgl.
  cbn [with_groups discovery.ServerGroups metav1.Groups]. f_equal.
  set (excluded := veleroapi.ExcludedResources (veleroapi.Spec veleroBackup)).
  change (fold_left (controllers.visitGroup ToLower dc excluded) (metav1.Groups groupList) []
          = fold_left (controllers.visitGroup ToLower dc excluded)
              (before
               ++ metav1.mkAPIGroup (metav1.APIGroup_Name group)
                    (vbefore ++ version :: vbetween ++ vafter)
               :: after) []).
  rewrite Hgroups, !fold_left_app. cbn [fold_left]. f_equal.
  destruct group as [name versions]. simpl in Hversions. subst versions.
  now apply visitGroup_repeated.
Qed.

Lemma getGenericCRDFromAPIGroups_repeated_version_witness :
  controllers.getGenericCRDFromAPIGroups gostrings.ToLowerASCII
    (discovery.mkDiscoveryInterface
       (Some (metav1.mkAPIGroupList
                [metav1.mkAPIGroup "velero.io" [gv "v1"; gv "v1"]]), None)
       hubResources)
    hubBackup
  = controllers.getGenericCRDFromAPIGroups gostrings.ToLowerASCII
      (with_groups
         (discovery.mkDiscoveryInterface
            (Some (metav1.mkAPIGroupList
                     [metav1.mkAPIGroup "velero.io" [gv "v1"; gv "v1"]]), None)
            hubResources)
         ([] ++ metav1.mkAPIGroup "velero.io" ([] ++ gv "v1" :: [] ++ []) :: []))
      hubBackup.
Proof.
  apply (getGenericCRDFromAPIGroups_repeated_version gostrings.ToLowerASCII _ hubBackup
           (metav1.mkAPIGroupList [metav1.mkAPIGroup "velero.io" [gv "v1"; gv "v1"]])
           [] [] (metav1.mkAPIGroup "velero.io" [gv "v1"; gv "v1"])
           [] [] [] (gv "v1") (gv "v1")); reflexivity.
Defined.

(** ** Storage location validator, continued *)

Section StorageLocationMoreFacts.

Implicit Types (items more : list veleroapi.BackupStorageLocation).

(** The scan, entered with the flag unset, is the search for the first
    qualifying location. *)
Lemma scanStorageLocations_find items namespace0 :
  controllers.scanStorageLocations items (false, namespace0)
  = match List.find qualifies items with
    | Some location => (true, veleroapi.Namespace location)
    | None => (false, namespace0)
    end.
Proof.
  induction items as [|item rest IH]; [reflexivity |].
  rewrite scanStorageLocations_step. simpl List.find.
  now destruct (qualifies item).
Qed.

Lemma find_filter_same items :
  List.find qualifies (List.filter qualifies items) = List.find qualifies items.
Proof.
  induction items as [|item rest IH]; [reflexivity |]. simpl.
  destruct (qualifies item) eqn:E; simpl; rewrite ?E; [reflexivity | exact IH].
Qed.

Lemma find_app_found items more location :
  List.find qualifies items = Some location ->
  List.find qualifies (items ++ more) = Some location.
Proof.
  induction items as [|item rest IH]; simpl; [discriminate |].
  destruct (qualifies item); [trivial | exact IH].
Qed.

End StorageLocationMoreFacts.

(** X17: the validator reports [true] exactly when some location of the
    list qualifies; then the namespace is that of a qualifying location of
    the list, and otherwise the namespace is empty. *)
Theorem isValidStorageLocationDefined_iff
    (veleroStorageLocations : veleroapi.BackupStorageLocationList) :
  let result := controllers.isValidStorageLocationDefined veleroStorageLocations in
  fst result = existsb qualifies (veleroapi.Items veleroStorageLocations)
  /\ (fst result = true ->
        exists location,
          In location (veleroapi.Items veleroStorageLocations)
          /\ qualifies location = true
          /\ snd result = veleroapi.Namespace location)
  /\ (fst result = false -> snd result = EmptyString).
Proof.
  cbv zeta. unfold controllers.isValidStorageLocationDefined.
  rewrite scanStorageLocations_find.
  destruct (List.find qualifies (veleroapi.Items veleroStorageLocations))
    as [location|] eqn:Hfind; simpl.
  - apply find_some in Hfind as [Hin Hq]. split_and!.
    + symmetry. apply existsb_exists. now exists location.
    + intros _. now exists location.
    + discriminate.
  - split_and!; [| discriminate | reflexivity].
    symmetry. apply not_true_is_false. intros (location & Hin & Hq)%existsb_exists.
    pose proof (find_none _ _ Hfind location Hin). congruence.
Qed.

Lemma isValidStorageLocationDefined_iff_witness :
  snd (controllers.isValidStorageLocationDefined
         (veleroapi.mkBackupStorageLocationList
            [location "velero-ns" "Available"
               (Some [metav1.mkOwnerReference "" "anonymous"])]))
  = EmptyString.
Proof.
  apply (isValidStorageLocationDefined_iff
           (veleroapi.mkBackupStorageLocationList
              [location "velero-ns" "Available"
                 (Some [metav1.mkOwnerReference "" "anonymous"])])).
  reflexivity.
Defined.

(** X18: locations that do not qualify never change the answer, wherever
    they stand, and once a list validates, locations added after it do not
    change the answer either. *)
Theorem isValidStorageLocationDefined_stable
    (items more : list veleroapi.BackupStorageLocation) :
  controllers.isValidStorageLocationDefined
    (veleroapi.mkBackupStorageLocationList (List.filter qualifies items))
  = controllers.isValidStorageLocationDefined (veleroapi.mkBackupStorageLocationList items)
  /\ (fst (controllers.isValidStorageLocationDefined
             (veleroapi.mkBackupStorageLocationList items)) = true ->
        controllers.isValidStorageLocationDefined
          (veleroapi.mkBackupStorageLocationList (items ++ more))
        = controllers.isValidStorageLocationDefined
            (veleroapi.mkBackupStorageLocationList items)).
Proof.
  unfold controllers.isValidStorageLocationDefined. simpl veleroapi.Items.
  rewrite !scanStorageLocations_find, find_filter_same. split; [reflexivity |].
  destruct (List.find qualifies items) as [location|] eqn:Hfind; simpl; [| discriminate].
  intros _. now rewrite (find_app_found _ more _ Hfind).
Qed.

Lemma isValidStorageLocationDefined_stable_witness :
  controllers.isValidStorageLocationDefined
    (veleroapi.mkBackupStorageLocationList
       ([location "velero-ns" "Available" (Some [veleroOwner])]
        ++ [location "other-ns" "Available" (Some [veleroOwner])]))
  = controllers.isValidStorageLocationDefined
      (veleroapi.mkBackupStorageLocationList
         [location "velero-ns" "Available" (Some [veleroOwner])]).
Proof.
  apply (isValidStorageLocationDefined_stable
           [location "velero-ns" "Available" (Some [veleroOwner])]
           [location "other-ns" "Available" (Some [veleroOwner])]).
  reflexivity.
Defined.

(** ** Hub identity, continued *)

(** X19: an error of the mapper or of the listing is returned as it is,
    unwrapped, with the identity ["unknown"]; a nil resource client gives
    ["unknown"] and no error. *)
Theorem getHubIdentification_errors
    (dyn : dynamic.Interface) (mapper : restmapper.DeferredDiscoveryRESTMapper) :
  (forall e,
      snd (restmapper.RESTMapping mapper clusterVersionKind [EmptyString]) = Some e ->
      controllers.getHubIdentification dyn mapper = Done ("unknown"%string, Some e))
  /\ (forall mapping,
        restmapper.RESTMapping mapper clusterVersionKind [EmptyString] = (Some mapping, None) ->
        (dynamic.Resource dyn (meta.Resource mapping) = None ->
           controllers.getHubIdentification dyn mapper = Done ("unknown"%string, None))
        /\ (forall dr e,
              dynamic.Resource dyn (meta.Resource mapping) = Some dr ->
              snd (dynamic.List dr) = Some e ->
              controllers.getHubIdentification dyn mapper = Done ("unknown"%string, Some e))).
Proof.
  unfold controllers.getHubIdentification. fold clusterVersionKind. split.
  - intros e He.
    destruct (restmapper.RESTMapping mapper clusterVersionKind [EmptyString]) as [m [e'|]];
      simpl in He; [injection He as -> | discriminate]. reflexivity.
  - intros mapping ->. split.
    + now intros ->.
    + intros dr e -> He. destruct (dynamic.List dr) as [items [e'|]]; simpl in He;
        [injection He as -> | discriminate]. reflexivity.
Qed.

Lemma getHubIdentification_errors_witness :
  controllers.getHubIdentification (listing None)
    (restmapper.mkDeferredDiscoveryRESTMapper
       (fun _ _ => (None, Some "no matches for kind ClusterVersion"%string)))
  = Done ("unknown"%string, Some "no matches for kind ClusterVersion"%string)
  /\ controllers.getHubIdentification
       (dynamic.mkInterface
          (fun _ => Some (dynamic.mkResourceInterface (None, Some "forbidden"%string))))
       clusterVersionMapper
     = Done ("unknown"%string, Some "forbidden"%string).
Proof.
  split.
  - apply (getHubIdentification_errors (listing None)
             (restmapper.mkDeferredDiscoveryRESTMapper
                (fun _ _ => (None, Some "no matches for kind ClusterVersion"%string)))).
    reflexivity.
  - destruct (getHubIdentification_errors
                (dynamic.mkInterface
                   (fun _ => Some (dynamic.mkResourceInterface
                                     (None, Some "forbidden"%string))))
                clusterVersionMapper) as [_ Hlist].
    destruct (Hlist clusterVersionMapping eq_refl) as [_ Herr].
    apply (Herr (dynamic.mkResourceInterface (None, Some "forbidden"%string))); reflexivity.
Defined.

(** X20: whenever the function returns, an error comes with the identity
    ["unknown"], and an identity other than ["unknown"] comes without error
    and is the string the [spec] map of the first listed item holds under
    [clusterID]. *)
Theorem getHubIdentification_returns
    (dyn : dynamic.Interface) (mapper : restmapper.DeferredDiscoveryRESTMapper)
    (uid : string) (err : option error) :
  controllers.getHubIdentification dyn mapper = Done (uid, err) ->
  (err <> None -> uid = "unknown"%string)
  /\ (uid <> "unknown"%string ->
        err = None
        /\ exists mapping dr items first rest object spec,
             restmapper.RESTMapping mapper clusterVersionKind [EmptyString]
             = (Some mapping, None)
             /\ dynamic.Resource dyn (meta.Resource mapping) = Some dr
             /\ dynamic.List dr = (Some items, None)
             /\ unstructured.Items items = first :: rest
             /\ unstructured.Object first = Some object
             /\ object !! "spec"%string = Some (unstructured.VMap spec)
             /\ spec !! "clusterID"%string = Some (unstructured.VString uid)).
Proof.
  destruct (restmapper.RESTMapping mapper clusterVersionKind [EmptyString])
    as [mapping [e|]] eqn:Hmap.
  { unfold controllers.getHubIdentification. fold clusterVersionKind. rewrite Hmap.
    intros [= <- <-]. split; [reflexivity | congruence]. }
  destruct mapping as [mapping|].
  2:{ unfold controllers.getHubIdentification. fold clusterVersionKind. rewrite Hmap.
      discriminate. }
  destruct (dynamic.Resource dyn (meta.Resource mapping)) as [dr|] eqn:Hres.
  2:{ unfold controllers.getHubIdentification. fold clusterVersionKind. rewrite Hmap, Hres.
      intros [= <- <-]. split; congruence. }
  destruct (dynamic.List dr) as [items [e|]] eqn:Hlist.
  { unfold controllers.getHubIdentification. fold clusterVersionKind.
    rewrite Hmap, Hres, Hlist. intros [= <- <-]. split; [reflexivity | congruence]. }
  destruct items as [items|].
  2:{ unfold controllers.getHubIdentification. fold clusterVersionKind.
      rewrite Hmap, Hres, Hlist. intros [= <- <-]. split; congruence. }
  destruct (unstructured.Items items) as [|first rest] eqn:Hitems.
  { unfold controllers.getHubIdentification. fold clusterVersionKind.
    rewrite Hmap, Hres, Hlist, Hitems. intros [= <- <-]. split; congruence. }
  destruct (unstructured.Object first) as [object|] eqn:Hobj.
  2:{ unfold controllers.getHubIdentification. fold clusterVersionKind.
      rewrite Hmap, Hres, Hlist, Hitems, Hobj. intros [= <- <-]. split; congruence. }
  rewrite (getHubIdentification_first_item _ _ _ _ _ _ _ _ Hmap Hres Hlist Hitems Hobj).
  unfold controllers.index_Object.
  destruct (object !! "spec"%string) as [[| | | | | |spec]|] eqn:Hspec; try discriminate;
    try (intros [= <- <-]; split; congruence).
  destruct (spec !! "clusterID"%string) as [value|] eqn:Hid;
    [| intros [= <- <-]; split; congruence].
  destruct value; try discriminate. simpl. intros [= <- <-].
  split; [congruence |]. intros _. split; [reflexivity |].
  exists mapping, dr, items, first, rest, object, spec. now split_and!.
Qed.

Lemma getHubIdentification_returns_witness :
  exists mapping dr items first rest object spec,
    restmapper.RESTMapping clusterVersionMapper clusterVersionKind [EmptyString]
    = (Some mapping, None)
    /\ dynamic.Resource
         (listing (Some (unstructured.mkUnstructuredList
                           [clusterVersion (specWithID (unstructured.VString "hub-7f3a"))])))
         (meta.Resource mapping) = Some dr
    /\ dynamic.List dr = (Some items, None)
    /\ unstructured.Items items = first :: rest
    /\ unstructured.Object first = Some object
    /\ object !! "spec"%string = Some (unstructured.VMap spec)
    /\ spec !! "clusterID"%string = Some (unstructured.VString "hub-7f3a").
Proof.
  destruct (getHubIdentification_returns
              (listing (Some (unstructured.mkUnstructuredList
                                [clusterVersion
                                   (specWithID (unstructured.VString "hub-7f3a"))])))
              clusterVersionMapper "hub-7f3a" None eq_refl) as [_ Hid].
  destruct Hid as [_ Hex]; [discriminate | exact Hex].
Defined.

(** X21: the identity is read from the [clusterID] of the [spec] of the
    first listed item and from nothing else: other items, other keys of the
    payload and other keys of [spec] do not change the outcome. *)
Theorem getHubIdentification_reads_clusterID_only
    (mapper : restmapper.DeferredDiscoveryRESTMapper)
    (object object' spec spec' : gmap string unstructured.Value)
    (rest rest' : list unstructured.Unstructured) :
  object !! "spec"%string = Some (unstructured.VMap spec) ->
  object' !! "spec"%string = Some (unstructured.VMap spec') ->
  spec !! "clusterID"%string = spec' !! "clusterID"%string ->
  controllers.getHubIdentification
    (listing (Some (unstructured.mkUnstructuredList
                      (unstructured.mkUnstructured (Some object) :: rest))))
    mapper
  = controllers.getHubIdentification
      (listing (Some (unstructured.mkUnstructuredList
                        (unstructured.mkUnstructured (Some object') :: rest'))))
      mapper.
Proof.
  intros Hspec Hspec' Hid.
  destruct (restmapper.RESTMapping mapper clusterVersionKind [EmptyString])
    as [mapping [e|]] eqn:Hmap.
  { unfold controllers.getHubIdentification. fold clusterVersionKind. now rewrite Hmap. }
  destruct mapping as [mapping|].
  2:{ unfold controllers.getHubIdentification. fold clusterVersionKind. now rewrite Hmap. }
  set (items := unstructured.mkUnstructuredList
                  (unstructured.mkUnstructured (Some object) :: rest)).
  set (items' := unstructured.mkUnstructuredList
                   (unstructured.mkUnstructured (Some object') :: rest')).
  rewrite (getHubIdentification_first_item (listing (Some items)) mapper mapping
             (dynamic.mkResourceInterface (Some items, None))
             items (unstructured.mkUnstructured (Some object)) rest object
             Hmap eq_refl eq_refl eq_refl eq_refl).
  rewrite (getHubIdentification_first_item (listing (Some items')) mapper mapping
             (dynamic.mkResourceInterface (Some items', None))
             items' (unstructured.mkUnstructured (Some object')) rest' object'
             Hmap eq_refl eq_refl eq_refl eq_refl).
  unfold controllers.index_Object. now rewrite Hspec, Hspec', Hid.
Qed.

Lemma getHubIdentification_reads_clusterID_only_witness :
  controllers.getHubIdentification
    (listing (Some (unstructured.mkUnstructuredList
                      [clusterVersion (specWithID (unstructured.VString "hub-7f3a"))])))
    clusterVersionMapper
  = controllers.getHubIdentification
      (listing (Some (unstructured.mkUnstructuredList
                        [unstructured.mkUnstructured
                           (Some (<["spec" := unstructured.VMap
                                     (<["clusterID" := unstructured.VString "hub-7f3a"]> ∅)]>
                                    ∅));
                         clusterVersion (specWithID (unstructured.VString "other"))])))
      clusterVersionMapper.
Proof.
  apply (getHubIdentification_reads_clusterID_only clusterVersionMapper
           (<["kind" := unstructured.VString "ClusterVersion"]>
              (<["spec" := specWithID (unstructured.VString "hub-7f3a")]> ∅))
           (<["spec" := unstructured.VMap
                (<["clusterID" := unstructured.VString "hub-7f3a"]> ∅)]> ∅)
           (<["channel" := unstructured.VString "stable-4.9"]>
              (<["clusterID" := unstructured.VString "hub-7f3a"]> ∅))
           (<["clusterID" := unstructured.VString "hub-7f3a"]> ∅));
    reflexivity.
Defined.

(** X22: the loop over the entries of the [spec] map gives the same
    outcome in every order in which the entries of one map can be
    yielded: the value under [clusterID] decides it. *)
Theorem rangeSpec_order_irrelevant
    (spec : gmap string unstructured.Value)
    (entries entries' : list (string * unstructured.Value)) (uid : string) :
  entries ≡ₚ map_to_list spec ->
  entries' ≡ₚ map_to_list spec ->
  controllers.rangeSpec entries uid = controllers.rangeSpec entries' uid
  /\ controllers.rangeSpec entries uid
     = match spec !! "clusterID"%string with
       | Some value => controllers.assertString value
       | None => Done uid
       end.
Proof.
  intros Hperm Hperm'.
  rewrite (rangeSpec_lookup spec entries uid Hperm),
    (rangeSpec_lookup spec entries' uid Hperm').
  now split.
Qed.

Lemma rangeSpec_order_irrelevant_witness :
  controllers.rangeSpec
    [("channel"%string, unstructured.VString "stable-4.9");
     ("clusterID"%string, unstructured.VString "hub-7f3a")] "unknown"
  = controllers.rangeSpec
      [("clusterID"%string, unstructured.VString "hub-7f3a");
       ("channel"%string, unstructured.VString "stable-4.9")] "unknown".
Proof.
  apply (rangeSpec_order_irrelevant
           (<["channel" := unstructured.VString "stable-4.9"]>
              (<["clusterID" := unstructured.VString "hub-7f3a"]> ∅))).
  - vm_compute. first [reflexivity | apply perm_swap].
  - vm_compute. first [reflexivity | apply perm_swap].
Defined.

(** X23: once the kind is mapped and the listing returns a first item,
    the function panics exactly when the payload of that item does not have
    the shape the loop can read: a [spec] that is not a map, or a
    [clusterID] that is not a string. *)
Theorem getHubIdentification_panics_iff
    (dyn : dynamic.Interface) (mapper : restmapper.DeferredDiscoveryRESTMapper)
    (mapping : meta.RESTMapping) (dr : dynamic.ResourceInterface)
    (items : unstructured.UnstructuredList)
    (first : unstructured.Unstructured) (rest : list unstructured.Unstructured) :
  restmapper.RESTMapping mapper clusterVersionKind [EmptyString] = (Some mapping, None) ->
  dynamic.Resource dyn (meta.Resource mapping) = Some dr ->
  dynamic.List dr = (Some items, None) ->
  unstructured.Items items = first :: rest ->
  (exists msg, controllers.getHubIdentification dyn mapper = Panic msg)
  <-> clusterID_shaped first = false.
Proof.
  intros Hmap Hres Hlist Hitems. unfold clusterID_shaped.
  destruct (unstructured.Object first) as [object|] eqn:Hobj.
  - rewrite (getHubIdentification_first_item _ _ _ _ _ _ _ _ Hmap Hres Hlist Hitems Hobj).
    unfold controllers.index_Object.
    destruct (object !! "spec"%string) as [[| | | | | |spec]|];
      try (split; [intros [msg H]; discriminate | discriminate]);
      try (split; [reflexivity | intros _; eexists; reflexivity]).
    destruct (spec !! "clusterID"%string) as [[]|]; simpl;
      try (split; [intros [msg H]; discriminate | discriminate]);
      try (split; [reflexivity | intros _; eexists; reflexivity]).
  - unfold controllers.getHubIdentification. fold clusterVersionKind.
    rewrite Hmap, Hres, Hlist, Hitems, Hobj.
    split; [intros [msg H]; discriminate | discriminate].
Qed.

Lemma getHubIdentification_panics_iff_witness :
  (exists msg,
     controllers.getHubIdentification
       (listing (Some (unstructured.mkUnstructuredList
                         [clusterVersion (specWithID (unstructured.VBool true))])))
       clusterVersionMapper = Panic msg)
  <-> clusterID_shaped (clusterVersion (specWithID (unstructured.VBool true))) = false.
Proof.
  apply (getHubIdentification_panics_iff _ clusterVersionMapper clusterVersionMapping
           (dynamic.mkResourceInterface
              (Some (unstructured.mkUnstructuredList
                       [clusterVersion (specWithID (unstructured.VBool true))]), None))
           (unstructured.mkUnstructuredList
              [clusterVersion (specWithID (unstructured.VBool true))])
           (clusterVersion (specWithID (unstructured.VBool true))) []);
    reflexivity.
Defined.

(** ** [SortResourceType] *)

Section SortFacts.

Variable ResourceType : Type.
Implicit Types (a : list ResourceType) (i j : Z).

Lemma index_slice_in_range a i :
  0 <= i < Z.of_nat (length a) ->
  exists x, controllers.index_slice ResourceType a i = Done x /\ a !! Z.to_nat i = Some x.
Proof.
  intros Hi. unfold controllers.index_slice.
  replace ((0 <=? i) && (i <? Z.of_nat (length a))) with true
    by (symmetry; rewrite andb_true_iff, Z.leb_le, Z.ltb_lt; lia).
  destruct (a !! Z.to_nat i) as [x|] eqn:Hlook; [now exists x |].
  apply lookup_ge_None in Hlook. lia.
Qed.

Lemma index_slice_out_of_range a i :
  ~ (0 <= i < Z.of_nat (length a)) ->
  controllers.index_slice ResourceType a i = Panic "index out of range".
Proof.
  intros Hi. unfold controllers.index_slice.
  destruct ((0 <=? i) && (i <? Z.of_nat (length a))) eqn:E; [| reflexivity].
  rewrite andb_true_iff, Z.leb_le, Z.ltb_lt in E. contradiction.
Qed.

Lemma index_slice_Done a i x :
  controllers.index_slice ResourceType a i = Done x ->
  0 <= i < Z.of_nat (length a) /\ a !! Z.to_nat i = Some x.
Proof.
  unfold controllers.index_slice.
  destruct ((0 <=? i) && (i <? Z.of_nat (length a))) eqn:E; [| discriminate].
  rewrite andb_true_iff, Z.leb_le, Z.ltb_lt in E.
  destruct (a !! Z.to_nat i) as [x'|]; [| discriminate]. intros [= ->]. split; [lia | reflexivity].
Qed.

Lemma index_slice_lookup a i x :
  0 <= i -> a !! Z.to_nat i = Some x -> controllers.index_slice ResourceType a i = Done x.
Proof.
  intros Hi Hlook. pose proof (lookup_lt_Some _ _ _ Hlook) as Hlt.
  destruct (index_slice_in_range a i) as (x' & Heq & Hx'); [lia |]. congruence.
Qed.

(** The slice after a swap inside the bounds, by its elements. *)
Lemma Swap_in_range a i j :
  0 <= i < Z.of_nat (length a) ->
  0 <= j < Z.of_nat (length a) ->
  exists a' x y,
    controllers.SortResourceType_Swap ResourceType a i j = Done a'
    /\ a !! Z.to_nat i = Some x
    /\ a !! Z.to_nat j = Some y
    /\ a' = <[Z.to_nat j := x]> (<[Z.to_nat i := y]> a)
    /\ length a' = length a
    /\ a' !! Z.to_nat i = Some y
    /\ a' !! Z.to_nat j = Some x.
Proof.
  intros Hi Hj.
  destruct (index_slice_in_range a i Hi) as (x & Hix & Hx).
  destruct (index_slice_in_range a j Hj) as (y & Hjy & Hy).
  exists (<[Z.to_nat j := x]> (<[Z.to_nat i := y]> a)), x, y.
  assert (Hli : (Z.to_nat i < length a)%nat) by now apply lookup_lt_Some in Hx.
  assert (Hlj : (Z.to_nat j < length a)%nat) by now apply lookup_lt_Some in Hy.
  split_and!; try reflexivity; try assumption.
  - unfold controllers.SortResourceType_Swap. now rewrite Hjy, Hix.
  - now rewrite !length_insert.
  - destruct (decide (Z.to_nat j = Z.to_nat i)) as [Heq | Hne].
    + rewrite Heq, list_lookup_insert_eq by (rewrite length_insert; lia). congruence.
    + rewrite list_lookup_insert_ne by exact Hne. now apply list_lookup_insert_eq.
  - apply list_lookup_insert_eq. rewrite length_insert. lia.
Qed.

Lemma Swap_Done_in_range a i j a' :
  controllers.SortResourceType_Swap ResourceType a i j = Done a' ->
  0 <= i < Z.of_nat (length a) /\ 0 <= j < Z.of_nat (length a).
Proof.
  unfold controllers.SortResourceType_Swap.
  destruct (controllers.index_slice ResourceType a j) as [y|] eqn:Hj; [| discriminate].
  destruct (controllers.index_slice ResourceType a i) as [x|] eqn:Hi; [| discriminate].
  intros _. apply index_slice_Done in Hi as [Hi _]. apply index_slice_Done in Hj as [Hj _].
  now split.
Qed.

End SortFacts.

(** X24: [Swap] with both indices inside the slice exchanges the two
    elements and leaves the others: the result is a permutation of the same
    length, and swapping again restores the slice; with an index outside
    the slice it panics. *)
Theorem SortResourceType_Swap_exchanges
    (ResourceType : Type) (a : list ResourceType) (i j : Z) :
  (0 <= i < controllers.SortResourceType_Len ResourceType a ->
   0 <= j < controllers.SortResourceType_Len ResourceType a ->
   exists a',
     controllers.SortResourceType_Swap ResourceType a i j = Done a'
     /\ a' ≡ₚ a
     /\ controllers.SortResourceType_Len ResourceType a'
        = controllers.SortResourceType_Len ResourceType a
     /\ a' !! Z.to_nat i = a !! Z.to_nat j
     /\ a' !! Z.to_nat j = a !! Z.to_nat i
     /\ (forall k, k <> Z.to_nat i -> k <> Z.to_nat j -> a' !! k = a !! k)
     /\ controllers.SortResourceType_Swap ResourceType a' i j = Done a)
  /\ (~ (0 <= i < controllers.SortResourceType_Len ResourceType a
         /\ 0 <= j < controllers.SortResourceType_Len ResourceType a) ->
        controllers.SortResourceType_Swap ResourceType a i j = Panic "index out of range").
Proof.
  unfold controllers.SortResourceType_Len. split.
  - intros Hi Hj.
    destruct (Swap_in_range ResourceType a i j Hi Hj)
      as (a' & x & y & Hswap & Hx & Hy & Ha' & Hlen & Hai & Haj).
    assert (Hli : (Z.to_nat i < length a)%nat) by now apply lookup_lt_Some in Hx.
    assert (Hlj : (Z.to_nat j < length a)%nat) by now apply lookup_lt_Some in Hy.
    exists a'. split_and!.
    + exact Hswap.
    + rewrite Ha'. now apply Permutation_insert_swap.
    + now rewrite Hlen.
    + congruence.
    + congruence.
    + intros k Hki Hkj. rewrite Ha'. now rewrite !list_lookup_insert_ne by congruence.
    + unfold controllers.SortResourceType_Swap.
      rewrite (index_slice_lookup ResourceType a' j x), (index_slice_lookup ResourceType a' i y)
        by (lia || assumption).
      simpl. f_equal. apply list_eq. intros k.
      destruct (decide (k = Z.to_nat j)) as [-> | Hkj].
      * rewrite list_lookup_insert_eq by (rewrite length_insert; lia). congruence.
      * rewrite list_lookup_insert_ne by congruence.
        destruct (decide (k = Z.to_nat i)) as [-> | Hki].
        -- rewrite list_lookup_insert_eq by lia. congruence.
        -- rewrite list_lookup_insert_ne by congruence.
           rewrite Ha'. now rewrite !list_lookup_insert_ne by congruence.
  - intros Hout. unfold controllers.SortResourceType_Swap.
    destruct (decide (0 <= j < Z.of_nat (length a))) as [Hj | Hj].
    + destruct (index_slice_in_range ResourceType a j Hj) as (y & -> & _). simpl.
      rewrite index_slice_out_of_range; [reflexivity | tauto].
    + now rewrite index_slice_out_of_range.
Qed.

Lemma SortResourceType_Swap_exchanges_witness :
  controllers.SortResourceType_Swap string ["secrets"; "configmaps"; "pods"]%string 0 2
  = Done ["pods"; "configmaps"; "secrets"]%string
  /\ controllers.SortResourceType_Swap string ["secrets"; "configmaps"]%string 0 2
     = Panic "index out of range".
Proof.
  split.
  - destruct (SortResourceType_Swap_exchanges string
                ["secrets"; "configmaps"; "pods"]%string 0 2) as [Hin _].
    destruct Hin as (a' & Heq & _);
      [unfold controllers.SortResourceType_Len; simpl; lia ..|].
    reflexivity.
  - apply (SortResourceType_Swap_exchanges string ["secrets"; "configmaps"]%string 0 2).
    unfold controllers.SortResourceType_Len. simpl. lia.
Defined.

(** X25: after a swap that succeeds, [Less] on the two indices answers
    what it answered before on the indices exchanged; on those indices
    [Less] does not panic and compares the two elements. *)
Theorem SortResourceType_Less_after_Swap
    (ResourceType : Type) (less : ResourceType -> ResourceType -> bool)
    (a a' : list ResourceType) (i j : Z) :
  controllers.SortResourceType_Swap ResourceType a i j = Done a' ->
  controllers.SortResourceType_Less ResourceType less a' i j
  = controllers.SortResourceType_Less ResourceType less a j i
  /\ exists x y,
       a !! Z.to_nat i = Some x /\ a !! Z.to_nat j = Some y
       /\ controllers.SortResourceType_Less ResourceType less a i j = Done (less x y).
Proof.
  intros Hswap. destruct (Swap_Done_in_range ResourceType a i j a' Hswap) as [Hi Hj].
  destruct (Swap_in_range ResourceType a i j Hi Hj)
    as (a'' & x & y & Hswap' & Hx & Hy & _ & _ & Hai & Haj).
  assert (a'' = a') by congruence. subst a''.
  unfold controllers.SortResourceType_Less.
  rewrite (index_slice_lookup ResourceType a' i y), (index_slice_lookup ResourceType a' j x),
    (index_slice_lookup ResourceType a i x), (index_slice_lookup ResourceType a j y)
    by (lia || assumption).
  split; [reflexivity |]. now exists x, y.
Qed.

Lemma SortResourceType_Less_after_Swap_witness :
  controllers.SortResourceType_Less string String.ltb
    ["pods"; "configmaps"; "secrets"]%string 0 2
  = controllers.SortResourceType_Less string String.ltb
      ["secrets"; "configmaps"; "pods"]%string 2 0.
Proof.
  apply (SortResourceType_Less_after_Swap string String.ltb
           ["secrets"; "configmaps"; "pods"]%string ["pods"; "configmaps"; "secrets"]%string
           0 2).
  reflexivity.
Defined.

(** ** Timestamps with Go's parser *)

Section ParserFacts.

Lemma digitChar_spec d :
  0 <= d <= 9 ->
  gotime.isDigit (digitChar d) = true
  /\ gotime.digit (digitChar d) = d
  /\ Ascii.eqb "-" (digitChar d) = false.
Proof.
  intros Hd.
  assert (Hcases : d = 0 \/ d = 1 \/ d = 2 \/ d = 3 \/ d = 4 \/ d = 5 \/ d = 6
                   \/ d = 7 \/ d = 8 \/ d = 9) by lia.
  repeat destruct Hcases as [-> | Hcases]; try subst d; now vm_compute.
Qed.

Lemma getnum_format2 n rest fixed :
  0 <= n < 100 -> gotime.getnum (format2 n rest) fixed = Some (n, rest).
Proof.
  intros Hn. unfold format2, gotime.getnum.
  destruct (digitChar_spec (n / 10)) as (-> & -> & _); [Z.div_mod_to_equations; lia |].
  destruct (digitChar_spec (n mod 10)) as (-> & -> & _); [Z.div_mod_to_equations; lia |].
  do 2 f_equal. Z.div_mod_to_equations. lia.
Qed.

Lemma getyear_format4 n rest :
  0 <= n < 10000 -> gotime.getyear (format4 n rest) = Some (n, rest).
Proof.
  intros Hn. unfold format4, format2, gotime.getyear.
  destruct (digitChar_spec (n / 1000)) as (-> & -> & _); [Z.div_mod_to_equations; lia |].
  destruct (digitChar_spec (n / 100 mod 10)) as (-> & -> & _);
    [Z.div_mod_to_equations; lia |].
  destruct (digitChar_spec (n mod 100 / 10)) as (-> & -> & _);
    [Z.div_mod_to_equations; lia |].
  destruct (digitChar_spec (n mod 100 mod 10)) as (-> & -> & _);
    [Z.div_mod_to_equations; lia |].
  cbn [andb]. do 2 f_equal. Z.div_mod_to_equations. lia.
Qed.

Lemma format2_no_dash n rest :
  0 <= n < 100 -> str_mem "-" (format2 n rest) = str_mem "-" rest.
Proof.
  intros Hn. unfold format2. cbn [str_mem].
  destruct (digitChar_spec (n / 10)) as (_ & _ & ->); [Z.div_mod_to_equations; lia |].
  destruct (digitChar_spec (n mod 10)) as (_ & _ & ->); [Z.div_mod_to_equations; lia |].
  reflexivity.
Qed.

Lemma format4_no_dash n rest :
  0 <= n < 10000 -> str_mem "-" (format4 n rest) = str_mem "-" rest.
Proof.
  intros Hn. unfold format4. cbn [str_mem].
  destruct (digitChar_spec (n / 1000)) as (_ & _ & ->); [Z.div_mod_to_equations; lia |].
  destruct (digitChar_spec (n / 100 mod 10)) as (_ & _ & ->);
    [Z.div_mod_to_equations; lia |].
  cbn [orb]. apply format2_no_dash. Z.div_mod_to_equations. lia.
Qed.

Lemma validTimestamp_bounds t :
  validTimestamp t = true ->
  0 <= gotime.Year t < 10000
  /\ 1 <= gotime.Month t <= 12
  /\ 1 <= gotime.Day t <= gotime.daysIn (gotime.Month t) (gotime.Year t)
  /\ 0 <= gotime.Hour t < 24
  /\ 0 <= gotime.Minute t < 60
  /\ 0 <= gotime.Second t < 60
  /\ gotime.Nanosecond t = 0.
Proof.
  unfold validTimestamp.
  rewrite !andb_true_iff, !Z.leb_le, !Z.ltb_lt, Z.eqb_eq. tauto.
Qed.

Lemma daysIn_le_31 month year : gotime.daysIn month year <= 31.
Proof.
  unfold gotime.daysIn.
  repeat match goal with |- context [if ?b then _ else _] => destruct b end; lia.
Qed.

(** The parser reads back what the formatter writes. *)
Lemma parse_formatTimestamp t :
  validTimestamp t = true ->
  gotime.parse_20060102150405 (formatTimestamp t) = Some t.
Proof.
  intros Hvalid. apply validTimestamp_bounds in Hvalid
    as (Hy & Hmo & Hd & Hh & Hmi & Hs & Hns).
  destruct t as [year month day hour minute second nsec]. cbn [gotime.Year gotime.Month
    gotime.Day gotime.Hour gotime.Minute gotime.Second gotime.Nanosecond] in *.
  pose proof (daysIn_le_31 month year) as H31.
  unfold gotime.parse_20060102150405, formatTimestamp.
  cbn [gotime.Year gotime.Month gotime.Day gotime.Hour gotime.Minute gotime.Second].
  rewrite getyear_format4 by lia. cbv beta iota.
  rewrite getnum_format2 by lia. cbv beta iota.
  replace ((month <=? 0) || (12 <? month)) with false
    by (symmetry; apply orb_false_intro; [apply Z.leb_gt | apply Z.ltb_ge]; lia).
  rewrite getnum_format2 by lia. cbv beta iota.
  rewrite getnum_format2 by lia. cbv beta iota.
  replace ((hour <? 0) || (24 <=? hour)) with false
    by (symmetry; apply orb_false_intro; [apply Z.ltb_ge | apply Z.leb_gt]; lia).
  rewrite getnum_format2 by lia. cbv beta iota.
  replace ((minute <? 0) || (60 <=? minute)) with false
    by (symmetry; apply orb_false_intro; [apply Z.ltb_ge | apply Z.leb_gt]; lia).
  rewrite getnum_format2 by lia. cbv beta iota.
  replace ((second <? 0) || (60 <=? second)) with false
    by (symmetry; apply orb_false_intro; [apply Z.ltb_ge | apply Z.leb_gt]; lia).
  cbn [gotime.getfraction].
  replace ((day <? 1) || (gotime.daysIn month year <? day)) with false
    by (symmetry; apply orb_false_intro; apply Z.ltb_ge; lia).
  now subst nsec.
Qed.

Lemma formatTimestamp_no_dash t :
  validTimestamp t = true -> str_mem "-" (formatTimestamp t) = false.
Proof.
  intros Hvalid. apply validTimestamp_bounds in Hvalid
    as (Hy & Hmo & Hd & Hh & Hmi & Hs & Hns).
  pose proof (daysIn_le_31 (gotime.Month t) (gotime.Year t)) as H31.
  unfold formatTimestamp.
  rewrite format4_no_dash by lia. now rewrite !format2_no_dash by lia.
Qed.

(** What the chunks of the parser accept. *)
Lemma getyear_Some s year rest :
  gotime.getyear s = Some (year, rest) ->
  exists a b c d,
    s = String a (String b (String c (String d rest)))
    /\ gotime.isDigit a = true /\ gotime.isDigit b = true
    /\ gotime.isDigit c = true /\ gotime.isDigit d = true.
Proof.
  unfold gotime.getyear.
  destruct s as [|a [|b [|c [|d r]]]]; try discriminate.
  destruct (gotime.isDigit a) eqn:Ea; [| discriminate].
  destruct (gotime.isDigit b) eqn:Eb; [| discriminate].
  destruct (gotime.isDigit c) eqn:Ec; [| discriminate].
  destruct (gotime.isDigit d) eqn:Ed; [| discriminate].
  cbn [andb]. intros [= _ <-]. exists a, b, c, d. split_and!; auto.
Qed.

Lemma getnum_Some s fixed n rest :
  gotime.getnum s fixed = Some (n, rest) ->
  (exists a b,
      s = String a (String b rest)
      /\ gotime.isDigit a = true /\ gotime.isDigit b = true)
  \/ (exists a,
        s = String a rest /\ gotime.isDigit a = true
        /\ forall fixed', gotime.getnum rest fixed' = None).
Proof.
  unfold gotime.getnum at 1.
  destruct s as [|a s0]; [discriminate |].
  destruct (gotime.isDigit a) eqn:Ea; [| discriminate].
  destruct s0 as [|b s1].
  - destruct fixed; [discriminate |]. intros [= _ <-]. right. now exists a.
  - destruct (gotime.isDigit b) eqn:Eb.
    + intros [= _ <-]. left. now exists a, b.
    + destruct fixed; [discriminate |]. intros [= _ <-]. right. exists a.
      split_and!; [reflexivity | exact Ea |].
      intros fixed'. unfold gotime.getnum. now rewrite Eb.
Qed.

Lemma getnum_fixed_Some s n rest :
  gotime.getnum s true = Some (n, rest) ->
  exists a b,
    s = String a (String b rest) /\ gotime.isDigit a = true /\ gotime.isDigit b = true.
Proof.
  unfold gotime.getnum.
  destruct s as [|a [|b s1]]; try discriminate;
    destruct (gotime.isDigit a) eqn:Ea; try discriminate.
  destruct (gotime.isDigit b) eqn:Eb; [| discriminate].
  intros [= _ <-]. now exists a, b.
Qed.

(** A segment the parser accepts begins with fourteen digits. *)
Lemma parse_leading_digits segment t :
  gotime.parse_20060102150405 segment = Some t -> leading_digits 14 segment = true.
Proof.
  unfold gotime.parse_20060102150405.
  destruct (gotime.getyear segment) as [[year v1]|] eqn:Hyear; [| discriminate].
  destruct (gotime.getnum v1 true) as [[month v2]|] eqn:Hmonth; [| discriminate].
  destruct ((month <=? 0) || (12 <? month)); [discriminate |].
  destruct (gotime.getnum v2 true) as [[day v3]|] eqn:Hday; [| discriminate].
  destruct (gotime.getnum v3 false) as [[hour v4]|] eqn:Hhour; [| discriminate].
  destruct ((hour <? 0) || (24 <=? hour)); [discriminate |].
  destruct (gotime.getnum v4 true) as [[minute v5]|] eqn:Hminute; [| discriminate].
  destruct ((minute <? 0) || (60 <=? minute)); [discriminate |].
  destruct (gotime.getnum v5 true) as [[second v6]|] eqn:Hsecond; [| discriminate].
  intros _.
  apply getyear_Some in Hyear as (c1 & c2 & c3 & c4 & -> & E1 & E2 & E3 & E4).
  apply getnum_fixed_Some in Hmonth as (c5 & c6 & -> & E5 & E6).
  apply getnum_fixed_Some in Hday as (c7 & c8 & -> & E7 & E8).
  apply getnum_Some in Hhour as [(c9 & c10 & -> & E9 & E10) | (c9 & -> & _ & Hnone)];
    [| rewrite Hnone in Hminute; discriminate].
  apply getnum_fixed_Some in Hminute as (c11 & c12 & -> & E11 & E12).
  apply getnum_fixed_Some in Hsecond as (c13 & c14 & -> & E13 & E14).
  cbn [leading_digits].
  now rewrite E1, E2, E3, E4, E5, E6, E7, E8, E9, E10, E11, E12, E13, E14.
Qed.

Lemma isDigit_digitChar c :
  gotime.isDigit c = true ->
  digitChar (gotime.digit c) = c /\ 0 <= gotime.digit c <= 9.
Proof.
  unfold gotime.isDigit, gotime.digit, digitChar.
  rewrite andb_true_iff, !Z.leb_le. intros [Hlo Hhi]. split; [| lia].
  replace (Z.to_N (48 + (Z.of_N (N_of_ascii c) - 48))) with (N_of_ascii c) by lia.
  apply ascii_N_embedding.
Qed.

Lemma format2_digits a b rest :
  gotime.isDigit a = true -> gotime.isDigit b = true ->
  String a (String b rest) = format2 (gotime.digit a * 10 + gotime.digit b) rest
  /\ 0 <= gotime.digit a * 10 + gotime.digit b < 100.
Proof.
  intros Ha Hb.
  destruct (isDigit_digitChar a Ha) as [Hca Hra].
  destruct (isDigit_digitChar b Hb) as [Hcb Hrb].
  split; [| lia]. unfold format2.
  replace ((gotime.digit a * 10 + gotime.digit b) / 10) with (gotime.digit a)
    by (Z.div_mod_to_equations; lia).
  replace ((gotime.digit a * 10 + gotime.digit b) mod 10) with (gotime.digit b)
    by (Z.div_mod_to_equations; lia).
  now rewrite Hca, Hcb.
Qed.

Lemma getnum_fixed_format2 s n rest :
  gotime.getnum s true = Some (n, rest) -> s = format2 n rest /\ 0 <= n < 100.
Proof.
  unfold gotime.getnum.
  destruct s as [|a [|b s1]]; try discriminate;
    destruct (gotime.isDigit a) eqn:Ea; try discriminate.
  destruct (gotime.isDigit b) eqn:Eb; [| discriminate].
  intros [= <- <-]. now apply format2_digits.
Qed.

Lemma getnum_free_format2 s n rest :
  gotime.getnum s false = Some (n, rest) ->
  (s = format2 n rest /\ 0 <= n < 100)
  \/ (forall fixed, gotime.getnum rest fixed = None).
Proof.
  unfold gotime.getnum at 1.
  destruct s as [|a s0]; [discriminate |].
  destruct (gotime.isDigit a) eqn:Ea; [| discriminate].
  destruct s0 as [|b s1].
  - intros [= _ <-]. now right.
  - destruct (gotime.isDigit b) eqn:Eb.
    + intros [= <- <-]. left. now apply format2_digits.
    + intros [= _ <-]. right. intros fixed. unfold gotime.getnum. now rewrite Eb.
Qed.

Lemma getyear_format4_inv s year rest :
  gotime.getyear s = Some (year, rest) -> s = format4 year rest /\ 0 <= year < 10000.
Proof.
  unfold gotime.getyear.
  destruct s as [|a [|b [|c [|d r]]]]; try discriminate.
  destruct (gotime.isDigit a) eqn:Ea; [| discriminate].
  destruct (gotime.isDigit b) eqn:Eb; [| discriminate].
  destruct (gotime.isDigit c) eqn:Ec; [| discriminate].
  destruct (gotime.isDigit d) eqn:Ed; [| discriminate].
  cbn [andb]. intros [= <- <-].
  destruct (isDigit_digitChar a Ea) as [Hca Hra].
  destruct (isDigit_digitChar b Eb) as [Hcb Hrb].
  destruct (isDigit_digitChar c Ec) as [Hcc Hrc].
  destruct (isDigit_digitChar d Ed) as [Hcd Hrd].
  set (da := gotime.digit a) in *. set (db := gotime.digit b) in *.
  set (dc := gotime.digit c) in *. set (dd := gotime.digit d) in *.
  split; [| lia]. unfold format4, format2.
  replace ((((da * 10 + db) * 10 + dc) * 10 + dd) / 1000) with da
    by (Z.div_mod_to_equations; lia).
  replace ((((da * 10 + db) * 10 + dc) * 10 + dd) / 100 mod 10) with db
    by (Z.div_mod_to_equations; lia).
  replace ((((da * 10 + db) * 10 + dc) * 10 + dd) mod 100 / 10) with dc
    by (Z.div_mod_to_equations; lia).
  replace ((((da * 10 + db) * 10 + dc) * 10 + dd) mod 100 mod 10) with dd
    by (Z.div_mod_to_equations; lia).
  now rewrite Hca, Hcb, Hcc, Hcd.
Qed.

Lemma leadingDigits_consumed s acc n ns n' :
  gotime.leadingDigits s acc n = (ns, n', EmptyString) ->
  leading_digits (String.length s) s = true.
Proof.
  revert acc n; induction s as [|c s IH]; intros acc n; [reflexivity |].
  cbn [gotime.leadingDigits String.length leading_digits].
  destruct (gotime.isDigit c); [| discriminate]. apply IH.
Qed.

(** What the parser takes for a fraction of a second when it reads the
    rest of the segment to its end: nothing, or a period or comma followed
    by digits only. *)
Lemma getfraction_consumed v nsec :
  gotime.getfraction v = (nsec, EmptyString) ->
  (v = EmptyString /\ nsec = 0)
  \/ exists sep digits,
       v = String sep digits
       /\ (sep = "."%char \/ sep = ","%char)
       /\ digits <> EmptyString
       /\ leading_digits (String.length digits) digits = true.
Proof.
  unfold gotime.getfraction.
  destruct v as [|sep [|c1 rest]]; [intros [= <-]; now left | discriminate |].
  destruct ((Ascii.eqb sep "." || Ascii.eqb sep ",") && gotime.isDigit c1) eqn:E;
    [| discriminate].
  apply andb_true_iff in E as [Hsep _].
  destruct (gotime.leadingDigits (String c1 rest) 0 0) as [[ns n'] rest'] eqn:Hlead.
  intros [= _ ->]. right. exists sep, (String c1 rest). split_and!.
  - reflexivity.
  - apply orb_true_iff in Hsep as [H | H]; apply Ascii.eqb_eq in H; auto.
  - discriminate.
  - now apply (leadingDigits_consumed _ _ _ _ _ Hlead).
Qed.

(** A segment the parser accepts is the formatted date and time it
    returns, valid, followed by what the parser reads as a fraction of a
    second; when nothing follows, the time has no fraction. *)
Lemma parse_accepts_formatted segment t :
  gotime.parse_20060102150405 segment = Some t ->
  let whole :=
    gotime.mkTime (gotime.Year t) (gotime.Month t) (gotime.Day t)
      (gotime.Hour t) (gotime.Minute t) (gotime.Second t) 0 in
  validTimestamp whole = true
  /\ exists fraction,
       segment = formatTimestamp whole +:+ fraction
       /\ (fraction = EmptyString -> t = whole)
       /\ (fraction = EmptyString
           \/ exists sep digits,
                fraction = String sep digits
                /\ (sep = "."%char \/ sep = ","%char)
                /\ digits <> EmptyString
                /\ leading_digits (String.length digits) digits = true).
Proof.
  unfold gotime.parse_20060102150405.
  destruct (gotime.getyear segment) as [[year v1]|] eqn:Hyear; [| discriminate].
  destruct (gotime.getnum v1 true) as [[month v2]|] eqn:Hmonth; [| discriminate].
  destruct ((month <=? 0) || (12 <? month)) eqn:Rmonth; [discriminate |].
  destruct (gotime.getnum v2 true) as [[day v3]|] eqn:Hday; [| discriminate].
  destruct (gotime.getnum v3 false) as [[hour v4]|] eqn:Hhour; [| discriminate].
  destruct ((hour <? 0) || (24 <=? hour)) eqn:Rhour; [discriminate |].
  destruct (gotime.getnum v4 true) as [[minute v5]|] eqn:Hminute; [| discriminate].
  destruct ((minute <? 0) || (60 <=? minute)) eqn:Rminute; [discriminate |].
  destruct (gotime.getnum v5 true) as [[second v6]|] eqn:Hsecond; [| discriminate].
  destruct ((second <? 0) || (60 <=? second)) eqn:Rsecond; [discriminate |].
  destruct (gotime.getfraction v6) as [nsec value] eqn:Hfraction.
  destruct value; [| discriminate].
  destruct ((day <? 1) || (gotime.daysIn month year <? day)) eqn:Rday; [discriminate |].
  intros [= <-]. cbn [gotime.Year gotime.Month gotime.Day gotime.Hour gotime.Minute
                       gotime.Second].
  apply getyear_format4_inv in Hyear as [-> Hy].
  apply getnum_fixed_format2 in Hmonth as [-> Hmo].
  apply getnum_fixed_format2 in Hday as [-> Hd].
  apply getnum_free_format2 in Hhour as [[-> Hh] | Hnone];
    [| rewrite Hnone in Hminute; discriminate].
  apply getnum_fixed_format2 in Hminute as [-> Hmi].
  apply getnum_fixed_format2 in Hsecond as [-> Hs].
  rewrite orb_false_iff, Z.leb_gt, Z.ltb_ge in Rmonth.
  rewrite orb_false_iff, Z.ltb_ge, Z.leb_gt in Rhour, Rminute, Rsecond.
  rewrite orb_false_iff, !Z.ltb_ge in Rday.
  split.
  - unfold validTimestamp. cbn [gotime.Year gotime.Month gotime.Day gotime.Hour
      gotime.Minute gotime.Second gotime.Nanosecond].
    rewrite !andb_true_iff, !Z.leb_le, !Z.ltb_lt, Z.eqb_eq. lia.
  - exists v6. split_and!; [reflexivity | |].
    + intros ->. cbn in Hfraction. now injection Hfraction as <-.
    + destruct (getfraction_consumed _ _ Hfraction) as [[-> _] | Hsep]; [now left | now right].
Qed.

End ParserFacts.

(** C6, as the specification states it, fails: a segment of fourteen
    digits followed by a fractional second is not of the form
    [YYYYMMDDHHMMSS], and Go's parser accepts it, so no error is
    returned. *)
Lemma getBackupTimestamp_fraction_accepted :
  ~ (forall scheduleName segment,
        str_mem "-" segment = false ->
        is_YYYYMMDDHHMMSS segment = false ->
        exists t e,
          controllers.getBackupTimestamp gotime.Parse (scheduleName +:+ "-" +:+ segment)
          = Done (t, Some e)).
Proof.
  intros Hclaim.
  destruct (Hclaim "acm-resources-schedule"%string "20230101120000.5"%string
              eq_refl eq_refl) as (t & e & Heq).
  vm_compute in Heq. discriminate.
Qed.

(** C6 (amended): a name without any dash gives the zero time and no
    error; a name with a dash splits at its last dash into a prefix and a
    dash-free segment, and the function returns what Go's [time.Parse]
    returns for that segment under the layout [20060102150405]: the time
    when the segment is the fourteen digits [YYYYMMDDHHMMSS] of a valid
    date and time; the parse error whenever the segment does not begin with
    fourteen digits; and a time without error only for a segment that
    begins with the fourteen digits of that valid date and time, followed
    by nothing or by a fraction of a second: a period or comma and
    digits. *)
Theorem getBackupTimestamp_go_parser (backupName : string) :
  (str_mem "-" backupName = false ->
     controllers.getBackupTimestamp gotime.Parse backupName = Done (gotime.zero, None))
  /\ (str_mem "-" backupName = true ->
        exists pre segment,
          backupName = pre +:+ "-" +:+ segment
          /\ str_mem "-" segment = false
          /\ controllers.getBackupTimestamp gotime.Parse backupName
             = Done (gotime.Parse "20060102150405" segment))
  /\ (forall scheduleName t,
        validTimestamp t = true ->
        controllers.getBackupTimestamp gotime.Parse
          (scheduleName +:+ "-" +:+ formatTimestamp t)
        = Done (t, None))
  /\ (forall scheduleName segment,
        str_mem "-" segment = false ->
        leading_digits 14 segment = false ->
        controllers.getBackupTimestamp gotime.Parse (scheduleName +:+ "-" +:+ segment)
        = Done (gotime.zero, Some gotime.parseError))
  /\ (forall scheduleName segment t,
        str_mem "-" segment = false ->
        controllers.getBackupTimestamp gotime.Parse (scheduleName +:+ "-" +:+ segment)
        = Done (t, None) ->
        let whole :=
          gotime.mkTime (gotime.Year t) (gotime.Month t) (gotime.Day t)
            (gotime.Hour t) (gotime.Minute t) (gotime.Second t) 0 in
        validTimestamp whole = true
        /\ exists fraction,
             segment = formatTimestamp whole +:+ fraction
             /\ (fraction = EmptyString -> t = whole)
             /\ (fraction = EmptyString
                 \/ exists sep digits,
                      fraction = String sep digits
                      /\ (sep = "."%char \/ sep = ","%char)
                      /\ digits <> EmptyString
                      /\ leading_digits (String.length digits) digits = true)).
Proof.
  split_and!.
  - apply (getBackupTimestamp_spec gotime.Parse backupName).
  - apply (getBackupTimestamp_spec gotime.Parse backupName).
  - intros scheduleName t Hvalid.
    change (scheduleName +:+ "-" +:+ formatTimestamp t)
      with (scheduleName +:+ String "-" (formatTimestamp t)).
    rewrite getBackupTimestamp_suffix by now apply formatTimestamp_no_dash.
    unfold gotime.Parse. cbn [String.eqb Ascii.eqb Bool.eqb].
    now rewrite parse_formatTimestamp.
  - intros scheduleName segment Hdash Hdigits.
    change (scheduleName +:+ "-" +:+ segment) with (scheduleName +:+ String "-" segment).
    rewrite getBackupTimestamp_suffix by assumption.
    unfold gotime.Parse. cbn [String.eqb Ascii.eqb Bool.eqb].
    destruct (gotime.parse_20060102150405 segment) as [t|] eqn:Hparse; [| reflexivity].
    apply parse_leading_digits in Hparse. congruence.
  - intros scheduleName segment t Hdash.
    change (scheduleName +:+ "-" +:+ segment) with (scheduleName +:+ String "-" segment).
    rewrite getBackupTimestamp_suffix by assumption.
    unfold gotime.Parse. cbn [String.eqb Ascii.eqb Bool.eqb].
    destruct (gotime.parse_20060102150405 segment) as [t'|] eqn:Hparse; [| discriminate].
    intros [= ->]. now apply parse_accepts_formatted.
Qed.

Lemma getBackupTimestamp_go_parser_witness :
  controllers.getBackupTimestamp gotime.Parse "acmresourcesschedule" = Done (gotime.zero, None)
  /\ controllers.getBackupTimestamp gotime.Parse
       ("acm-resources-schedule" +:+ "-"
        +:+ formatTimestamp (gotime.mkTime 2023 1 1 12 0 0 0))
     = Done (gotime.mkTime 2023 1 1 12 0 0 0, None)
  /\ controllers.getBackupTimestamp gotime.Parse
       ("acm-resources-schedule" +:+ "-" +:+ "notatimestamp")
     = Done (gotime.zero, Some gotime.parseError).
Proof.
  destruct (getBackupTimestamp_go_parser "acmresourcesschedule")
    as (Hnone & _ & Hvalid & Hreject & _).
  split_and!.
  - apply Hnone. reflexivity.
  - apply Hvalid. reflexivity.
  - apply Hreject; reflexivity.
Defined.

(** The formatter writes the timestamp of the specification's example. *)
Example formatTimestamp_example :
  formatTimestamp (gotime.mkTime 2023 1 1 12 0 0 0) = "20230101120000"%string.
Proof. reflexivity. Qed.

(** A month outside the calendar is refused although the segment has
    fourteen digits, and a fraction of a second is read into the time. *)
Example getBackupTimestamp_month_13 :
  controllers.getBackupTimestamp gotime.Parse "acm-resources-schedule-20231301120000"
  = Done (gotime.zero, Some gotime.parseError).
Proof. reflexivity. Qed.

Example getBackupTimestamp_fraction :
  controllers.getBackupTimestamp gotime.Parse "acm-resources-schedule-20230101120000.5"
  = Done (gotime.mkTime 2023 1 1 12 0 0 500000000, None).
Proof. reflexivity. Qed.
